(** * The products data-access module (db/products) of the e-commerce backend

    The module exposes five operations over the [products] table:
    [createProduct], [getProducts], [getSingleProduct], [updateProduct]
    and [deleteProduct].  Each one awaits at most one call of
    [client.query] inside a [try]/[catch] and returns a result envelope
    [{success, ...}].

    The development has three layers:
    - the JavaScript values the operations inspect (truthiness, [<=]);
    - the operations themselves, as programs of a small monad whose only
      effects are [await client.query(text, values)] and [console.error];
    - a relational store that interprets the SQL text the operations send. *)

From Stdlib Require Import ZArith String Ascii List SpecFloat.
From stdpp Require Import base option gmap strings list sorting pretty.

Local Open Scope string_scope.
Local Open Scope list_scope.

(** ** JavaScript values *)

(** A JavaScript number is an IEEE 754 binary64 value: signed zeros, signed
    infinities, NaN, and finite values [(-1)^s * m * 2^e]. *)
Definition number : Type := spec_float.

Definition NaN : number := S754_nan.
Definition pos_zero : number := S754_zero false.
Definition neg_zero : number := S754_zero true.
Definition one : number := S754_finite false 1 0.

(** The values a property of the request payload (or the [product_id]
    argument) can hold: the values a JSON body is parsed to, and
    [undefined].  An object or array is kept by reference.  Functions,
    symbols and big integers do not occur in a parsed body. *)
Inductive value : Type :=
| VUndefined
| VNull
| VBoolean (b : bool)
| VNumber (n : number)
| VString (s : string)
| VObject (ref : nat).

Global Instance value_inhabited : Inhabited value := populate VUndefined.

(** What is thrown, and what a rejected [client.query] promise carries. *)
Record Error : Type := { message : string }.

(** The conversions of a string and of an object to a number
    ([StringToNumber], and [ToNumber] through [ToPrimitive]) are built-ins
    of the runtime.  The module never calls them directly: they take part
    in [data.price <= 0] when the price is a string or an object.  The
    conversion of an object can throw a [TypeError].  The development is
    parametric in both. *)
Class Runtime : Type := {
  StringToNumber : string → number;
  ObjectToNumber : nat → Error + number
}.

(** [ToBoolean]: the test performed by [if (v)]. *)
Definition truthy (v : value) : bool :=
  match v with
  | VUndefined | VNull => false
  | VBoolean b => b
  | VNumber (S754_zero _) | VNumber S754_nan => false
  | VNumber _ => true
  | VString s => negb (String.eqb s "")
  | VObject _ => true
  end.

Section Coercions.
Context `{Runtime}.

(** [ToNumber]; [inl] is a thrown error. *)
Definition ToNumber (v : value) : Error + number :=
  match v with
  | VUndefined => inr NaN
  | VNull => inr pos_zero
  | VBoolean true => inr one
  | VBoolean false => inr pos_zero
  | VNumber n => inr n
  | VString s => inr (StringToNumber s)
  | VObject o => ObjectToNumber o
  end.

(** [IsLessThan] on numbers: [None] is the language's [undefined], the
    answer when an operand is NaN. *)
Definition IsLessThan (x y : number) : option bool :=
  match SFcompare x y with
  | Some Lt => Some true
  | Some _ => Some false
  | None => None
  end.

(** [v <= n] for a numeric right operand: the left operand is converted
    (which can throw), the operands are swapped and the answer negated; an
    undefined comparison is [false]. *)
Definition js_le (v : value) (n : number) : Error + bool :=
  match ToNumber v with
  | inl error => inl error
  | inr x =>
      inr match IsLessThan n x with
          | Some false => true
          | _ => false
          end
  end.
End Coercions.

(** A plain object: property names to values.  Reading a property that is
    absent yields [undefined]. *)
Definition get (data : gmap string value) (key : string) : value :=
  default VUndefined (data !! key).

(** ** Rows, query results, envelopes *)

(** A row of [products] as the driver hands it back in [rows]. *)
Module Row.
Record t : Type := mk {
  id : Z;
  name : value;
  description : value;
  price : value;
  category_id : value;
  image_url : value;
  created_at : Z;
  updated_at : Z
}.
End Row.

(** The object a resolved [client.query] promise carries. *)
Record QueryResult : Type := { rows : list Row.t; rowCount : nat }.

(** The result envelope.  [rows[0]] of an empty array is [undefined], hence
    the [option]. *)
Inductive envelope : Type :=
| SuccessProduct (product : option Row.t)   (* {success: true, product: rows[0]} *)
| SuccessProducts (products : list Row.t)   (* {success: true, products: rows} *)
| SuccessItem (item : option Row.t)         (* {success: true, item: rows[0]} *)
| Success                                   (* {success: true} *)
| Failure (error : string).                 (* {success: false, error: msg} *)

Definition success (e : envelope) : bool :=
  match e with Failure _ => false | _ => true end.

(** ** Programs: awaiting the client and writing to the console *)

Inductive console_arg : Type :=
| LogString (s : string)
| LogError (e : Error).

Inductive Async (A : Type) : Type :=
| Return (a : A)
| ConsoleError (args : list console_arg) (k : Async A)
| Await (text : string) (values : list value) (k : Error + QueryResult → Async A).

Arguments Return {A} a.
Arguments ConsoleError {A} args k.
Arguments Await {A} text values k.

(** [try { const r = await client.query(text, values); ok(r) }
     catch (error) { handler(error) }] *)
Definition try_query {A} (text : string) (values : list value)
    (ok : QueryResult → Async A) (handler : Error → Async A) : Async A :=
  Await text values (λ r, match r with inl error => handler error | inr res => ok res end).

(** The statement a program sends, if it sends one. *)
Fixpoint request {A} (p : Async A) : option (string * list value) :=
  match p with
  | Return _ => None
  | ConsoleError _ k => request k
  | Await text values _ => Some (text, values)
  end.

(** Running a program against a client gives the store the client leaves,
    the lines written to the console, and the value returned. *)
Section Run.
Context {S A : Type}.
(** A client: what [client.query] does to the store behind it. *)
Variable query : string → list value → S → S * (Error + QueryResult).

Fixpoint run (p : Async A) (st : S) : S * list (list console_arg) * A :=
  match p with
  | Return a => (st, [], a)
  | ConsoleError args k =>
      let '(st', out, a) := run k st in (st', args :: out, a)
  | Await text values k =>
      let '(st', r) := query text values st in run (k r) st'
  end.
End Run.

(** ** The five operations *)

Definition nl : string := String "010" "".

Definition INSERT_SQL : string :=
  nl +:+ "      INSERT INTO products (name, description, price, category_id, image_url) "
  +:+ nl +:+ "      VALUES ($1, $2, $3, $4, $5) RETURNING id, name, description, price, category_id, image_url, created_at, updated_at;"
  +:+ nl +:+ "      ".

Definition createProduct (name description price category_id image_url : value)
    : Async envelope :=
  try_query INSERT_SQL [name; description; price; category_id; image_url]
    (λ res, Return (SuccessProduct (rows res !! 0%nat)))
    (λ error,
       ConsoleError [LogString "ERROR CREATING PRODUCT: "; LogError error]
         (Return (Failure (message error)))).

Definition SELECT_ALL_SQL : string :=
  nl +:+ "      SELECT * FROM products"
  +:+ nl +:+ "      ORDER BY created_at DESC;"
  +:+ nl +:+ "    ".

(** [client.query(text)]: the call passes no values. *)
Definition getProducts : Async envelope :=
  try_query SELECT_ALL_SQL []
    (λ res, Return (SuccessProducts (rows res)))
    (λ error,
       ConsoleError [LogString "ERROR FETCHING PRODUCTS: "; LogError error]
         (Return (Failure (message error)))).

Definition SELECT_ONE_SQL : string :=
  nl +:+ "      SELECT * FROM products"
  +:+ nl +:+ "      WHERE id = $1;"
  +:+ nl +:+ "      ".

Definition getSingleProduct (product_id : value) : Async envelope :=
  try_query SELECT_ONE_SQL [product_id]
    (λ res,
       if decide (length (rows res) = 0%nat) then
         ConsoleError [LogString "Item not found"]
           (Return (Failure "Item not found"))
       else Return (SuccessItem (rows res !! 0%nat)))
    (λ error,
       ConsoleError [LogString "ERROR FETCHING PRODUCT: "; LogError error]
         (Return (Failure (message error)))).

(** The template literal of the update statement. *)
Definition UPDATE_SQL (fields : list string) : string :=
  nl +:+ "      UPDATE products "
  +:+ nl +:+ "      SET " +:+ String.concat ", " fields +:+ " "
  +:+ nl +:+ "      WHERE id = $" +:+ pretty (length fields + 1)%nat +:+ " "
  +:+ nl +:+ "      RETURNING id, name, description, price, category_id, image_url, created_at, updated_at;"
  +:+ nl +:+ "    ".

(** [if (data.key) { fields.push(`key = $${fields.length + 1}`);
                     values.push(data.key); }] *)
Definition push_field (data : gmap string value) (key : string)
    (acc : list string * list value) : list string * list value :=
  let '(fields, values) := acc in
  (fields ++ [key +:+ " = $" +:+ pretty (length fields + 1)%nat],
   values ++ [get data key]).

Definition push_if_truthy (data : gmap string value) (key : string)
    (acc : list string * list value) : list string * list value :=
  if truthy (get data key) then push_field data key acc else acc.

Section Update.
Context `{Runtime}.

Definition updateProduct (product_id : value) (data : gmap string value)
    : Async envelope :=
  (* catch (error) { ... }: the one handler of the try block *)
  let catch (error : Error) : Async envelope :=
    ConsoleError [LogString "ERROR UPDATING PRODUCT: "; LogError error]
      (Return (Failure (message error))) in
  let acc : list string * list value := ([], []) in
  let acc := push_if_truthy data "name" acc in
  let acc := push_if_truthy data "description" acc in
  (* the statements after the price block *)
  let after_price (acc : list string * list value) : Async envelope :=
    let acc := push_if_truthy data "category_id" acc in
    let acc := push_if_truthy data "image_url" acc in
    let '(fields, values) := acc in
    if decide (length fields = 0%nat) then
      Return (Failure "No fields to update.")
    else
      let query := UPDATE_SQL fields in
      let values := values ++ [product_id] in
      try_query query values
        (λ res,
           if decide (length (rows res) = 0%nat) then
             Return (Failure "Product not found.")
           else Return (SuccessProduct (rows res !! 0%nat)))
        catch in
  if truthy (get data "price") then
    match js_le (get data "price") pos_zero with
    | inl error => catch error   (* the comparison threw *)
    | inr true => Return (Failure "Price must be a positive number.")
    | inr false => after_price (push_field data "price" acc)
    end
  else after_price acc.
End Update.

Definition DELETE_SQL : string :=
  nl +:+ "      DELETE FROM products "
  +:+ nl +:+ "      WHERE id = $1;"
  +:+ nl +:+ "      ".

Definition deleteProduct (product_id : value) : Async envelope :=
  try_query DELETE_SQL [product_id]
    (λ res,
       if decide (rowCount res = 0%nat) then Return (Failure "Product not found.")
       else Return Success)
    (λ error,
       ConsoleError [LogString "ERROR DELETING PRODUCT: "; LogError error]
         (Return (Failure (message error)))).


(** ** The relational store behind [client.query]

    The client ([db/client.js]) and the [products] table it talks to are
    not part of the module.  The store below is the table of the spec's
    data model (section 3); it interprets the five statement shapes of the
    spec's store boundary (section 6) from the SQL text and the parameter
    array it is given.  It enforces no constraint and runs no trigger: none
    is visible from the module. *)

(** Modelled from the spec: the columns of the [products] table, which the
    module only names inside its SQL texts. *)
Inductive column : Type :=
| c_id | c_name | c_description | c_price | c_category_id | c_image_url
| c_created_at | c_updated_at.

Global Instance column_eq_dec : EqDecision column.
Proof. solve_decision. Defined.

Definition column_name (c : column) : string :=
  match c with
  | c_id => "id"
  | c_name => "name"
  | c_description => "description"
  | c_price => "price"
  | c_category_id => "category_id"
  | c_image_url => "image_url"
  | c_created_at => "created_at"
  | c_updated_at => "updated_at"
  end.

Definition all_columns : list column :=
  [c_id; c_name; c_description; c_price; c_category_id; c_image_url;
   c_created_at; c_updated_at].

Definition parse_column (s : string) : option column :=
  list_find (λ c, column_name c = s) all_columns ≫= λ p, Some p.2.

(** Modelled from the spec: the five statement shapes the store accepts
    (the SQL grammar of the database is not part of the module). *)
Inductive statement : Type :=
| Insert (cols : list column) (params : list nat)
| SelectAllByCreatedDesc
| SelectById (param : nat)
| Update (sets : list (column * nat)) (param : nat)
| Delete (param : nat).

(** *** Lexing: words separated by white space; punctuation stands alone. *)

Definition is_punct (a : ascii) : bool :=
  match a with
  | "," | "(" | ")" | ";" | "=" | "*" => true
  | _ => false
  end%char.

Definition flush (cur : option string) : list string :=
  option_list (String.rev <$> cur).

Fixpoint lex_go (cur : option string) (s : string) : list string :=
  match s with
  | "" => flush cur
  | String a s =>
      if Ascii.is_space a then flush cur ++ lex_go None s
      else if is_punct a then flush cur ++ String a "" :: lex_go None s
      else lex_go (Some (String a (default "" cur))) s
  end.

Definition lex : string → list string := lex_go None.

(** *** Parsing *)

Fixpoint digits (s : string) (acc : nat) : option nat :=
  match s with
  | "" => Some acc
  | String a s => Ascii.is_nat a ≫= λ d, digits s (10 * acc + d)
  end.

(** A placeholder [$n], [n >= 1]. *)
Definition parse_placeholder (s : string) : option nat :=
  match s with
  | String "$" (String a s') =>
      digits (String a s') 0 ≫= λ n, if decide (n = 0%nat) then None else Some n
  | _ => None
  end.

Definition expect (kw : list string) (ts : list string) : option (list string) :=
  if decide (take (length kw) ts = kw) then Some (drop (length kw) ts) else None.

(** [c1, c2, ..., cn] *)
Fixpoint parse_columns (ts : list string) : option (list column * list string) :=
  match ts with
  | [] => None
  | c :: ts1 =>
      col ← parse_column c;
      match ts1 with
      | sep :: ts2 =>
          if decide (sep = ",") then
            '(cols, rest) ← parse_columns ts2; Some (col :: cols, rest)
          else Some ([col], ts1)
      | [] => Some ([col], ts1)
      end
  end.

(** [$a, $b, ..., $z] *)
Fixpoint parse_placeholders (ts : list string) : option (list nat * list string) :=
  match ts with
  | [] => None
  | p :: ts1 =>
      n ← parse_placeholder p;
      match ts1 with
      | sep :: ts2 =>
          if decide (sep = ",") then
            '(ns, rest) ← parse_placeholders ts2; Some (n :: ns, rest)
          else Some ([n], ts1)
      | [] => Some ([n], ts1)
      end
  end.

(** [c1 = $a, c2 = $b, ...] *)
Fixpoint parse_sets (ts : list string) : option (list (column * nat) * list string) :=
  match ts with
  | c :: eq :: p :: ts1 =>
      col ← parse_column c;
      _ ← guard (eq = "=");
      n ← parse_placeholder p;
      match ts1 with
      | sep :: ts2 =>
          if decide (sep = ",") then
            '(sets, rest) ← parse_sets ts2; Some ((col, n) :: sets, rest)
          else Some ([(col, n)], ts1)
      | [] => Some ([(col, n)], ts1)
      end
  | _ => None
  end.

(** [RETURNING] followed by every column of the table, in order: the rows
    handed back are whole rows. *)
Definition returning_all : list string :=
  ["RETURNING"; "id"; ","; "name"; ","; "description"; ","; "price"; ",";
   "category_id"; ","; "image_url"; ","; "created_at"; ","; "updated_at"].

(** [WHERE id = $n] *)
Definition parse_where_id (ts : list string) : option (nat * list string) :=
  ts ← expect ["WHERE"; "id"; "="] ts;
  match ts with
  | p :: rest => n ← parse_placeholder p; Some (n, rest)
  | [] => None
  end.

Definition parse_tokens (ts : list string) : option statement :=
  match ts with
  | [] => None
  | verb :: ts =>
      if decide (verb = "INSERT") then
        ts ← expect ["INTO"; "products"; "("] ts;
        '(cols, ts) ← parse_columns ts;
        ts ← expect [")"; "VALUES"; "("] ts;
        '(params, ts) ← parse_placeholders ts;
        ts ← expect (")" :: returning_all ++ [";"]) ts;
        _ ← guard (ts = []);
        Some (Insert cols params)
      else if decide (verb = "SELECT") then
        ts ← expect ["*"; "FROM"; "products"] ts;
        match expect ["ORDER"; "BY"; "created_at"; "DESC"; ";"] ts with
        | Some ts => _ ← guard (ts = []); Some SelectAllByCreatedDesc
        | None =>
            '(n, ts) ← parse_where_id ts;
            _ ← guard (ts = [";"]);
            Some (SelectById n)
        end
      else if decide (verb = "UPDATE") then
        ts ← expect ["products"; "SET"] ts;
        '(sets, ts) ← parse_sets ts;
        '(n, ts) ← parse_where_id ts;
        _ ← guard (ts = returning_all ++ [";"]);
        Some (Update sets n)
      else if decide (verb = "DELETE") then
        ts ← expect ["FROM"; "products"] ts;
        '(n, ts) ← parse_where_id ts;
        _ ← guard (ts = [";"]);
        Some (Delete n)
      else None
  end.

Definition parse (text : string) : option statement := parse_tokens (lex text).

(** *** Execution *)

(** Modelled from the spec: the conversions of the database driver, which
    is not part of the module.  What the driver and the server make of a
    JavaScript value bound to a placeholder depends on the type of the
    column it meets, and can fail (a text that is no integer, say).  The
    store is parametric in these conversions. *)
Class Driver : Type := {
  to_integer : value → Error + Z;
  to_timestamp : value → Error + Z;
  to_cell : column → value → Error + value
}.

(** Modelled from the spec: the [products] table with its id sequence and
    the server's time, which live in the database, not in the module. *)
Record Store : Type := { table : list Row.t; next_id : Z; clock : Z }.

Definition and_then {A B} (m : Error + A) (f : A → Error + B) : Error + B :=
  match m with inl e => inl e | inr a => f a end.

Notation "x ←! m ; k" := (and_then m (λ x, k))
  (at level 20, m at level 100, k at level 200, only parsing).
Notation "m ≫=! f" := (and_then m f) (at level 60, only parsing).

(** The value bound to [$n]. *)
Definition param (values : list value) (n : nat) : Error + value :=
  match n with
  | O => inl {| message := "there is no parameter $0" |}
  | S i =>
      match values !! i with
      | Some v => inr v
      | None => inl {| message := "there is no parameter $" +:+ pretty n |}
      end
  end.

Section Exec.
Context `{Driver}.

(** [c = v] as a change of a row. *)
Definition set_column (c : column) (v : value) : Error + (Row.t → Row.t) :=
  match c with
  | c_id =>
      z ←! to_integer v;
      inr (λ r, Row.mk z (Row.name r) (Row.description r) (Row.price r)
                  (Row.category_id r) (Row.image_url r)
                  (Row.created_at r) (Row.updated_at r))
  | c_name =>
      x ←! to_cell c v;
      inr (λ r, Row.mk (Row.id r) x (Row.description r) (Row.price r)
                  (Row.category_id r) (Row.image_url r)
                  (Row.created_at r) (Row.updated_at r))
  | c_description =>
      x ←! to_cell c v;
      inr (λ r, Row.mk (Row.id r) (Row.name r) x (Row.price r)
                  (Row.category_id r) (Row.image_url r)
                  (Row.created_at r) (Row.updated_at r))
  | c_price =>
      x ←! to_cell c v;
      inr (λ r, Row.mk (Row.id r) (Row.name r) (Row.description r) x
                  (Row.category_id r) (Row.image_url r)
                  (Row.created_at r) (Row.updated_at r))
  | c_category_id =>
      x ←! to_cell c v;
      inr (λ r, Row.mk (Row.id r) (Row.name r) (Row.description r) (Row.price r)
                  x (Row.image_url r)
                  (Row.created_at r) (Row.updated_at r))
  | c_image_url =>
      x ←! to_cell c v;
      inr (λ r, Row.mk (Row.id r) (Row.name r) (Row.description r) (Row.price r)
                  (Row.category_id r) x
                  (Row.created_at r) (Row.updated_at r))
  | c_created_at =>
      z ←! to_timestamp v;
      inr (λ r, Row.mk (Row.id r) (Row.name r) (Row.description r) (Row.price r)
                  (Row.category_id r) (Row.image_url r)
                  z (Row.updated_at r))
  | c_updated_at =>
      z ←! to_timestamp v;
      inr (λ r, Row.mk (Row.id r) (Row.name r) (Row.description r) (Row.price r)
                  (Row.category_id r) (Row.image_url r)
                  (Row.created_at r) z)
  end.

(** [c1 = $a, c2 = $b, ...], applied left to right. *)
Fixpoint assignments (sets : list (column * nat)) (values : list value)
    : Error + (Row.t → Row.t) :=
  match sets with
  | [] => inr (λ r, r)
  | (c, n) :: sets =>
      v ←! param values n;
      f ←! set_column c v;
      g ←! assignments sets values;
      inr (λ r, g (f r))
  end.

Definition has_id (k : Z) (r : Row.t) : Prop := Row.id r = k.

Global Instance has_id_dec k r : Decision (has_id k r).
Proof. unfold has_id. apply _. Defined.

(** [ORDER BY created_at DESC] *)
Definition created_desc (r1 r2 : Row.t) : Prop :=
  (Row.created_at r2 ≤ Row.created_at r1)%Z.

Global Instance created_desc_dec r1 r2 : Decision (created_desc r1 r2).
Proof. unfold created_desc. apply _. Defined.

Definition fail (db : Store) (e : Error) : Store * (Error + QueryResult) :=
  (db, inl e).

Definition answer (db : Store) (rs : list Row.t) : Store * (Error + QueryResult) :=
  (db, inr {| rows := rs; rowCount := length rs |}).

(** Modelled from the spec: what the database does with a statement, which
    is not part of the module.  [INSERT] appends a row with the next id and
    the server's time in both timestamps; [SELECT ... ORDER BY created_at
    DESC] returns every row, newest first; [SELECT], [UPDATE] and [DELETE]
    with [WHERE id = $n] read, rewrite or remove the rows under that id.  A
    conversion that fails rejects the whole statement and changes nothing. *)
Definition exec (st : statement) (values : list value) (db : Store)
    : Store * (Error + QueryResult) :=
  match st with
  | Insert cols params =>
      if decide (length cols = length params) then
        match assignments (zip cols params) values with
        | inl e => fail db e
        | inr f =>
            let r := f (Row.mk (next_id db) VNull VNull VNull VNull VNull
                          (clock db) (clock db)) in
            answer {| table := table db ++ [r];
                      next_id := next_id db + 1;
                      clock := clock db |} [r]
        end
      else fail db {| message := "INSERT has more target columns than expressions" |}
  | SelectAllByCreatedDesc =>
      answer db (merge_sort created_desc (table db))
  | SelectById n =>
      match param values n ≫=! to_integer with
      | inl e => fail db e
      | inr k => answer db (filter (has_id k) (table db))
      end
  | Update sets n =>
      match assignments sets values, param values n ≫=! to_integer with
      | inl e, _ | _, inl e => fail db e
      | inr f, inr k =>
          answer {| table := (λ r, if decide (has_id k r) then f r else r) <$> table db;
                    next_id := next_id db;
                    clock := clock db |}
                 (f <$> filter (has_id k) (table db))
      end
  | Delete n =>
      match param values n ≫=! to_integer with
      | inl e => fail db e
      | inr k =>
          (* no RETURNING: no rows, only the count of deleted rows *)
          ({| table := filter (λ r, ¬ has_id k r) (table db);
              next_id := next_id db;
              clock := clock db |},
           inr {| rows := [];
                  rowCount := length (filter (has_id k) (table db)) |})
      end
  end.

(** Modelled from the spec: [client.query(text, values)] of [db/client.js],
    which is not part of the module: the text is parsed, then executed. *)
Definition client_query (text : string) (values : list value) (db : Store)
    : Store * (Error + QueryResult) :=
  match parse text with
  | None => fail db {| message := "syntax error" |}
  | Some st => exec st values db
  end.
End Exec.

(** ** What [updateProduct] builds *)

(** The properties [updateProduct] looks at, in the order it looks at them. *)
Definition updatable : list string :=
  ["name"; "description"; "price"; "category_id"; "image_url"].

(** The ones whose value in [data] is truthy. *)
Definition supplied (data : gmap string value) : list string :=
  List.filter (λ key, truthy (get data key)) updatable.

(** [key_1 = $1, ..., key_k = $k] as the array [fields]. *)
Definition set_clause (keys : list string) : list string :=
  imap (λ i key, key +:+ " = $" +:+ pretty (i + 1)%nat) keys.

Section UpdateFacts.
Context `{Runtime}.

(** The price block of [updateProduct]: it throws ([inl]), rejects
    ([inr true]) or lets the update go on ([inr false]). *)
Definition price_check (data : gmap string value) : Error + bool :=
  if truthy (get data "price") then js_le (get data "price") pos_zero
  else inr false.

(** The [catch] block of [updateProduct]. *)
Definition on_update_error (error : Error) : Async envelope :=
  ConsoleError [LogString "ERROR UPDATING PRODUCT: "; LogError error]
    (Return (Failure (message error))).

Definition on_update_result (r : Error + QueryResult) : Async envelope :=
  match r with
  | inl error => on_update_error error
  | inr res =>
      if decide (length (rows res) = 0%nat) then
        Return (Failure "Product not found.")
      else Return (SuccessProduct (rows res !! 0%nat))
  end.

End UpdateFacts.

(** The same, told by columns. *)
Definition data_columns : list column :=
  [c_name; c_description; c_price; c_category_id; c_image_url].

Definition supplied_columns (data : gmap string value) : list column :=
  List.filter (λ c, truthy (get data (column_name c))) data_columns.

(** [c_1 = $1, ..., c_k = $k] as the parser reads it back. *)
Definition numbered (cols : list column) : list (column * nat) :=
  imap (λ i c, (c, S i)) cols.

(** The cell of a row under a column. *)
Definition cell (c : column) (r : Row.t) : value + Z :=
  match c with
  | c_id => inr (Row.id r)
  | c_name => inl (Row.name r)
  | c_description => inl (Row.description r)
  | c_price => inl (Row.price r)
  | c_category_id => inl (Row.category_id r)
  | c_image_url => inl (Row.image_url r)
  | c_created_at => inr (Row.created_at r)
  | c_updated_at => inr (Row.updated_at r)
  end.

(** ** Numbers and instances for the examples *)

(** The double nearest to an integer, and to a quotient of two doubles. *)
Definition of_Z (z : Z) : number := binary_normalize 53 1024 z 0 false.
Definition quotient (x y : number) : number := SFdiv 53 1024 x y.

(** The integer a double stands for, if it stands for one. *)
Definition integer_of_number (n : number) : option Z :=
  match n with
  | S754_zero _ => Some 0%Z
  | S754_finite s m e =>
      if (0 <=? e)%Z then Some (cond_Zopp s (Zpos m * 2 ^ e))
      else if (Zpos m mod 2 ^ (- e) =? 0)%Z
           then Some (cond_Zopp s (Zpos m / 2 ^ (- e)))
           else None
  | _ => None
  end.

(** [StringToNumber] on signed decimal integers; every other text is read
    as NaN here.  The examples compare numbers only. *)
Definition integer_literal (s : string) : number :=
  match s with
  | "" => pos_zero
  | String "-" (String a s') =>
      match digits (String a s') 0 with
      | Some O => neg_zero
      | Some n => of_Z (- Z.of_nat n)
      | None => NaN
      end
  | _ => match digits s 0 with Some n => of_Z (Z.of_nat n) | None => NaN end
  end.

(** Every object is read as NaN here, as a plain object is. *)
Definition integers_only : Runtime :=
  {| StringToNumber := integer_literal; ObjectToNumber := λ _, inr NaN |}.

(** A driver that takes integral numbers and decimal texts for integer and
    timestamp columns, and stores any value in a data column as it is. *)
Definition plain_integer (v : value) : Error + Z :=
  match v with
  | VNumber n =>
      match integer_of_number n with
      | Some z => inr z
      | None => inl {| message := "invalid input syntax for type integer" |}
      end
  | VString (String a s) =>
      match digits (String a s) 0 with
      | Some n => inr (Z.of_nat n)
      | None => inl {| message := "invalid input syntax for type integer" |}
      end
  | _ => inl {| message := "invalid input syntax for type integer" |}
  end.

Definition plain_driver : Driver :=
  {| to_integer := plain_integer;
     to_timestamp := plain_integer;
     to_cell := λ _ v, inr v |}.

(** A client whose every call is rejected with the same error. *)
Definition rejecting {S} (e : Error)
    : string → list value → S → S * (Error + QueryResult) :=
  λ _ _ st, (st, inl e).

(** A store with two products. *)
Definition mug : Row.t :=
  Row.mk 1 (VString "Mug") (VString "Ceramic mug")
    (VNumber (quotient (of_Z 999) (of_Z 100))) (VNumber (of_Z 3))
    (VString "http://x/mug.png") 100 100.

Definition amp : Row.t :=
  Row.mk 2 (VString "Amp") (VString "Tube amp")
    (VNumber (of_Z 450)) (VNumber (of_Z 7))
    (VString "http://x/amp.png") 200 200.

Definition shop : Store := {| table := [mug; amp]; next_id := 3; clock := 300 |}.

(** ** Catching what the client rejects *)

(** [p] catches: whenever the call it makes is rejected with [e], by any
    client over any store, the run ends in the store the client left, with
    one logged line that carries [e] and the failure envelope of [e]'s
    message. *)
Definition catches (p : Async envelope) : Prop :=
  ∀ (S : Type) (query : string → list value → S → S * (Error + QueryResult))
    (st st' : S) (text : string) (values : list value) (e : Error),
    request p = Some (text, values) →
    query text values st = (st', inl e) →
    ∃ label : string,
      run query p st =
        (st', [[LogString label; LogError e]], Failure (message e)).

(** The payload of the first counterexample: a name, and a price of 0. *)
Definition zero_price_payload : gmap string value :=
  {[ "name" := VString "x"; "price" := VNumber pos_zero ]}.

(** Further payloads, and stores, of the examples. *)
Definition negative_price_payload : gmap string value :=
  {[ "price" := VNumber (of_Z (-5)) ]}.

Definition description_payload : gmap string value :=
  {[ "description" := VString "Big mug" ]}.

Definition name_and_price_payload : gmap string value :=
  {[ "name" := VString "Mug XL"; "price" := VNumber (of_Z 12) ]}.

Definition unrecognized_payload : gmap string value :=
  {[ "color" := VString "red"; "name" := VString "" ]}.

Definition renamed_mug : Row.t :=
  Row.mk 1 (VString "x") (VString "Ceramic mug")
    (VNumber (quotient (of_Z 999) (of_Z 100))) (VNumber (of_Z 3))
    (VString "http://x/mug.png") 100 100.

Definition shop_with_renamed_mug : Store :=
  {| table := [renamed_mug; amp]; next_id := 3; clock := 300 |}.

Definition connection_lost : Error := {| message := "Connection terminated" |}.

Definition no_rows : QueryResult := {| rows := []; rowCount := 0 |}.

(** ** Counting the calls of the client *)

Section Calls.
Context {S A : Type}.
Variable query : string → list value → S → S * (Error + QueryResult).

(** How often a run awaits [client.query]. *)
Fixpoint calls (p : Async A) (st : S) : nat :=
  match p with
  | Return _ => 0%nat
  | ConsoleError _ k => calls k st
  | Await text values k =>
      let '(st', r) := query text values st in Datatypes.S (calls (k r) st')
  end.
End Calls.

(** [p] writes nothing to the console when it returns a success. *)
Definition quiet_on_success (p : Async envelope) : Prop :=
  ∀ (S : Type) (query : string → list value → S → S * (Error + QueryResult))
    (st : S),
    success (run query p st).2 = true → (run query p st).1.2 = [].

(** Ids are distinct and below the next id the store hands out. *)
Definition distinct_ids (db : Store) : Prop :=
  NoDup (Row.id <$> table db)
  ∧ Forall (λ r, (Row.id r < next_id db)%Z) (table db).

(** ** The server's port

    [const PORT = process.env.PORT || 3000;] of [server.js].  The values
    of the environment are texts. *)
Definition PORT (env : gmap string string) : value :=
  let configured := default VUndefined (VString <$> env !! "PORT") in
  if truthy configured then configured else VNumber (of_Z 3000).

(** ** More instances for the examples *)

(** A runtime in which no object converts to a primitive value. *)
Definition opaque_objects : Runtime :=
  {| StringToNumber := integer_literal;
     ObjectToNumber := λ _,
       inl {| message := "Cannot convert object to primitive value" |} |}.

Definition object_price_payload : gmap string value :=
  {[ "name" := VString "Mug"; "price" := VObject 0 ]}.

Definition text_price_payload : gmap string value :=
  {[ "price" := VString "abc" ]}.

Definition quoted_description_payload : gmap string value :=
  {[ "description" := VString "'; DROP TABLE products; --" ]}.

Definition pick : Row.t :=
  Row.mk 3 (VString "Pick") (VString "Celluloid pick") (VNumber one)
    (VNumber (of_Z 3)) (VString "http://x/pick.png") 300 300.

(** * Properties *)

(** Membership in a list given by its elements. *)
Ltac listed := repeat constructor.

Lemma fixed_columns_not_data :
  (c_id ∉ data_columns) ∧ (c_created_at ∉ data_columns)
  ∧ (c_updated_at ∉ data_columns).
Proof.
  unfold data_columns. repeat split; intros Hin;
    repeat (apply elem_of_cons in Hin as [Heq|Hin]; [discriminate Heq|]);
    inversion Hin.
Qed.

Section Facts.
Context `{Runtime}.

(** [updateProduct] in one piece: the price check, the empty check, the
    statement it sends and what it makes of the answer. *)
Lemma updateProduct_unfold product_id data :
  updateProduct product_id data =
    match price_check data with
    | inl error => on_update_error error
    | inr true => Return (Failure "Price must be a positive number.")
    | inr false =>
        if decide (supplied data = []) then
          Return (Failure "No fields to update.")
        else
          Await (UPDATE_SQL (set_clause (supplied data)))
                ((get data <$> supplied data) ++ [product_id])
                on_update_result
    end.
Proof.
  unfold updateProduct, price_check, supplied, updatable, push_if_truthy,
    try_query, on_update_result, on_update_error.
  cbn [List.filter].
  generalize (get data "name") (get data "description") (get data "price")
    (get data "category_id") (get data "image_url").
  intros v1 v2 v3 v4 v5.
  destruct (truthy v1), (truthy v2), (truthy v3);
    try destruct (js_le v3 pos_zero) as [e|[]]; try reflexivity;
    destruct (truthy v4), (truthy v5); reflexivity.
Qed.

Lemma supplied_by_columns (data : gmap string value) :
  supplied data = column_name <$> supplied_columns data.
Proof.
  unfold supplied, supplied_columns, updatable, data_columns.
  cbn [List.filter column_name].
  repeat match goal with |- context [truthy ?v] => destruct (truthy v) end;
    reflexivity.
Qed.

(** The store's parser reads the statement back as the assignments
    [c_i = $i] followed by [WHERE id = $(k+1)]. *)
Lemma parse_update_statement (f : column → bool) :
  List.filter f data_columns ≠ [] →
  parse (UPDATE_SQL (set_clause (column_name <$> List.filter f data_columns)))
  = Some (Update (numbered (List.filter f data_columns))
                 (S (length (List.filter f data_columns)))).
Proof.
  unfold data_columns. cbn [List.filter].
  destruct (f c_name), (f c_description), (f c_price), (f c_category_id),
    (f c_image_url); intros Hne; try (exfalso; apply Hne; reflexivity);
    vm_compute; reflexivity.
Qed.

Lemma parse_update_supplied (data : gmap string value) :
  supplied data ≠ [] →
  parse (UPDATE_SQL (set_clause (supplied data)))
  = Some (Update (numbered (supplied_columns data))
                 (S (length (supplied data)))).
Proof.
  rewrite supplied_by_columns. intros Hne.
  rewrite length_fmap. unfold supplied_columns.
  apply parse_update_statement. intros Heq. apply Hne.
  unfold supplied_columns. rewrite Heq. reflexivity.
Qed.

Lemma price_check_falsy (data : gmap string value) :
  truthy (get data "price") = false → price_check data = inr false.
Proof. unfold price_check. intros ->. reflexivity. Qed.

Lemma price_check_truthy (data : gmap string value) :
  truthy (get data "price") = true →
  price_check data = js_le (get data "price") pos_zero.
Proof. unfold price_check. intros ->. reflexivity. Qed.

(** A comparison that throws inside the [try] block ends in the [catch]
    block: the error is logged and returned, and no statement is sent. *)
Lemma updateProduct_catches_thrown_comparison product_id data (e : Error) :
  truthy (get data "price") = true →
  js_le (get data "price") pos_zero = inl e →
  updateProduct product_id data = on_update_error e.
Proof.
  intros Ht Hle. rewrite updateProduct_unfold, (price_check_truthy data Ht), Hle.
  reflexivity.
Qed.

(** A negative number is truthy and [<= 0]. *)
Lemma negative_number_rejected (n : number) :
  SFltb n pos_zero = true →
  truthy (VNumber n) = true ∧ js_le (VNumber n) pos_zero = inr true.
Proof.
  unfold SFltb, js_le, IsLessThan, ToNumber, pos_zero.
  destruct n as [[]|[]| |[] m e]; cbn; intros Hlt; try discriminate; auto.
Qed.

Lemma supplied_truthy (data : gmap string value) (key : string) :
  key ∈ supplied data ↔ key ∈ updatable ∧ truthy (get data key) = true.
Proof.
  unfold supplied. rewrite !list_elem_of_In, filter_In. reflexivity.
Qed.

Lemma get_delete (data : gmap string value) (key key' : string) :
  get (delete key data) key' = if decide (key = key') then VUndefined else get data key'.
Proof.
  unfold get. destruct (decide (key = key')) as [->|Hne].
  - rewrite lookup_delete_eq. reflexivity.
  - rewrite lookup_delete_ne by assumption. reflexivity.
Qed.

Lemma truthy_get_delete (data : gmap string value) (key key' : string) :
  truthy (get data key) = false →
  truthy (get (delete key data) key') = truthy (get data key').
Proof.
  intros Hf. rewrite get_delete. destruct (decide (key = key')) as [->|_].
  - rewrite Hf. reflexivity.
  - reflexivity.
Qed.

Lemma supplied_delete (data : gmap string value) (key : string) :
  truthy (get data key) = false →
  supplied (delete key data) = supplied data.
Proof.
  intros Hf. unfold supplied. apply filter_ext. intros key'.
  apply truthy_get_delete. assumption.
Qed.

Lemma updateProduct_delete_falsy product_id (data : gmap string value) (key : string) :
  truthy (get data key) = false →
  updateProduct product_id (delete key data) = updateProduct product_id data.
Proof.
  intros Hf. rewrite !updateProduct_unfold.
  assert (price_check (delete key data) = price_check data) as ->.
  { unfold price_check. rewrite get_delete.
    destruct (decide (key = "price")) as [->|_]; [|reflexivity].
    rewrite Hf. reflexivity. }
  rewrite supplied_delete by assumption.
  replace (get (delete key data) <$> supplied data) with (get data <$> supplied data);
    [reflexivity|].
  apply list_fmap_ext. intros i key' Hin.
  rewrite get_delete. destruct (decide (key = key')) as [->|_]; [|reflexivity].
  apply list_elem_of_lookup_2, supplied_truthy in Hin. destruct Hin as [_ Ht].
  congruence.
Qed.

End Facts.

Section StoreFacts.
Context `{Runtime} `{Driver}.

Lemma set_column_frame (c c' : column) (v : value) (f : Row.t → Row.t) :
  set_column c v = inr f → c' ≠ c → ∀ r, cell c' (f r) = cell c' r.
Proof.
  intros Hset Hne r. destruct c; cbn in Hset;
    match type of Hset with
    | and_then ?m _ = _ => destruct m; cbn in Hset; [discriminate|]
    end;
    injection Hset as <-; destruct c'; try reflexivity; congruence.
Qed.

Lemma assignments_frame (sets : list (column * nat)) (values : list value)
    (f : Row.t → Row.t) (c' : column) :
  assignments sets values = inr f → c' ∉ sets.*1 → ∀ r, cell c' (f r) = cell c' r.
Proof.
  revert f. induction sets as [|[c n] sets IH]; intros f Hf Hnot r.
  - injection Hf as <-. reflexivity.
  - cbn in Hf.
    destruct (param values n) as [|v]; [discriminate|]. cbn in Hf.
    destruct (set_column c v) as [|g] eqn:Hg; [discriminate|]. cbn in Hf.
    destruct (assignments sets values) as [|h]; [discriminate|]. cbn in Hf.
    injection Hf as <-.
    rewrite fmap_cons in Hnot. apply not_elem_of_cons in Hnot as [Hne Hnot].
    rewrite (IH h eq_refl Hnot).
    exact (set_column_frame _ _ _ _ Hg Hne r).
Qed.

Lemma imap_fst_id (g : nat → nat) (l : list column) :
  (imap (λ i c, (c, g i)) l).*1 = l.
Proof.
  revert g. induction l as [|c l IH]; intros g; [reflexivity|].
  cbn. f_equal. apply (IH (g ∘ S)).
Qed.

Lemma numbered_columns (cols : list column) : (numbered cols).*1 = cols.
Proof. apply (imap_fst_id S). Qed.

(** What [UPDATE] leaves alone: every column the [SET] clause does not name,
    in every row; and the rest of the store. *)
Lemma exec_update_frame (sets : list (column * nat)) (n : nat)
    (values : list value) (db : Store) (c : column) :
  c ∉ sets.*1 →
  Forall2 (λ r r', cell c r' = cell c r)
    (table db) (table (exec (Update sets n) values db).1).
Proof.
  intros Hnot. cbn.
  destruct (assignments sets values) as [e|f] eqn:Hf;
    destruct (and_then (param values n) to_integer) as [e'|k]; cbn;
    try (apply Forall2_same_length_lookup; split; [reflexivity|];
         intros i r r' Hr Hr'; congruence).
  apply Forall2_fmap_r, Forall_Forall2_diag, Forall_forall. intros r _.
  unfold compose. case_decide; [|reflexivity].
  exact (assignments_frame _ _ _ _ Hf Hnot r).
Qed.

Lemma run_on_update_result_store (r : Error + QueryResult) (db : Store) :
  (run client_query (on_update_result r) db).1.1 = db.
Proof.
  destruct r as [e|res]; cbn; [reflexivity|].
  destruct (decide (length (rows res) = 0%nat)); reflexivity.
Qed.

(** The run of [updateProduct] against the store, case by case. *)
Lemma run_updateProduct (product_id : value) (data : gmap string value) (db : Store) :
  run client_query (updateProduct product_id data) db =
    match price_check data with
    | inl error =>
        (db, [[LogString "ERROR UPDATING PRODUCT: "; LogError error]],
         Failure (message error))
    | inr true => (db, [], Failure "Price must be a positive number.")
    | inr false =>
        if decide (supplied data = []) then
          (db, [], Failure "No fields to update.")
        else
          let '(db', r) :=
            exec (Update (numbered (supplied_columns data))
                         (S (length (supplied data))))
                 ((get data <$> supplied data) ++ [product_id]) db in
          run client_query (on_update_result r) db'
    end.
Proof.
  rewrite updateProduct_unfold.
  destruct (price_check data) as [e|[]]; [reflexivity..|].
  destruct (decide (supplied data = [])) as [|Hne]; [reflexivity|].
  cbn [run]. unfold client_query at 1.
  rewrite (parse_update_supplied data Hne). reflexivity.
Qed.

Lemma Forall2_cell_refl (c : column) (l : list Row.t) :
  Forall2 (λ r r', cell c r' = cell c r) l l.
Proof. apply Forall_Forall2_diag, Forall_forall. reflexivity. Qed.

(** A column whose property is not truthy in [data] keeps its cells through
    [updateProduct], whatever the outcome. *)
Lemma updateProduct_frame (product_id : value) (data : gmap string value)
    (db : Store) (c : column) :
  c ∉ supplied_columns data →
  Forall2 (λ r r', cell c r' = cell c r)
    (table db) (table (run client_query (updateProduct product_id data) db).1.1).
Proof.
  intros Hnot. rewrite run_updateProduct.
  destruct (price_check data) as [e|[]]; [apply Forall2_cell_refl..|].
  destruct (decide (supplied data = [])); [apply Forall2_cell_refl|].
  pose proof (exec_update_frame (numbered (supplied_columns data))
                (S (length (supplied data)))
                ((get data <$> supplied data) ++ [product_id]) db c) as Hframe.
  rewrite numbered_columns in Hframe. specialize (Hframe Hnot).
  destruct (exec _ _ db) as [db' r]. rewrite run_on_update_result_store.
  exact Hframe.
Qed.

Lemma supplied_columns_truthy (data : gmap string value) (c : column) :
  c ∈ supplied_columns data ↔
  c ∈ data_columns ∧ truthy (get data (column_name c)) = true.
Proof.
  unfold supplied_columns. rewrite !list_elem_of_In, filter_In. reflexivity.
Qed.

Global Instance created_desc_total : Total created_desc.
Proof. intros r1 r2. unfold created_desc. lia. Qed.

Global Instance created_desc_trans : Transitive created_desc.
Proof. intros r1 r2 r3. unfold created_desc. lia. Qed.

Lemma filter_none_matching (k : Z) (l : list Row.t) :
  filter (has_id k) l = [] → filter (λ r, ¬ has_id k r) l = l.
Proof.
  induction l as [|r l IH]; [reflexivity|].
  rewrite !filter_cons. destruct (decide (has_id k r)) as [Hid|Hid].
  - discriminate.
  - intros Hnil. destruct (decide (¬ has_id k r)); [|contradiction].
    f_equal. apply IH. assumption.
Qed.

Lemma filter_empty_not_exists (k : Z) (l : list Row.t) :
  filter (has_id k) l = [] ↔ ¬ Exists (has_id k) l.
Proof.
  rewrite Exists_exists. split.
  - intros Hnil [r [Hin Hid]]. eapply filter_nil_not_elem_of; eassumption.
  - intros Hno. destruct (filter (has_id k) l) as [|r l'] eqn:Hfil; [reflexivity|].
    exfalso. apply Hno. exists r.
    assert (r ∈ filter (has_id k) l) as Hin by (rewrite Hfil; left).
    apply list_elem_of_filter in Hin. destruct Hin; auto.
Qed.

(** With distinct ids, the rows under an id are the row itself. *)
Lemma filter_unique_id (k : Z) (l : list Row.t) (r : Row.t) :
  NoDup (Row.id <$> l) → r ∈ l → Row.id r = k → filter (has_id k) l = [r].
Proof.
  induction l as [|r' l IH]; intros Hnd Hin Hid.
  - inversion Hin.
  - rewrite fmap_cons in Hnd. apply NoDup_cons in Hnd as [Hfresh Hnd].
    rewrite filter_cons. apply elem_of_cons in Hin as [<-|Hin].
    + destruct (decide (has_id k r)) as [_|Hno]; [|contradiction].
      f_equal. destruct (filter (has_id k) l) as [|r2 l2] eqn:Hfil; [reflexivity|].
      exfalso. apply Hfresh.
      assert (r2 ∈ filter (has_id k) l) as Hin2 by (rewrite Hfil; left).
      apply list_elem_of_filter in Hin2 as [Hid2 Hin2].
      apply list_elem_of_fmap. exists r2. split; [|assumption].
      unfold has_id in Hid2. congruence.
    + destruct (decide (has_id k r')) as [Hid'|_].
      * exfalso. apply Hfresh. apply list_elem_of_fmap. exists r.
        split; [|assumption]. unfold has_id in Hid'. congruence.
      * apply IH; assumption.
Qed.

Lemma parse_select_one : parse SELECT_ONE_SQL = Some (SelectById 1).
Proof. vm_compute. reflexivity. Qed.

Lemma parse_select_all : parse SELECT_ALL_SQL = Some SelectAllByCreatedDesc.
Proof. vm_compute. reflexivity. Qed.

Lemma parse_delete : parse DELETE_SQL = Some (Delete 1).
Proof. vm_compute. reflexivity. Qed.

Lemma parse_insert :
  parse INSERT_SQL
  = Some (Insert [c_name; c_description; c_price; c_category_id; c_image_url]
                 [1; 2; 3; 4; 5]%nat).
Proof. vm_compute. reflexivity. Qed.

(** The run of [getSingleProduct] against the store, case by case. *)
Lemma run_getSingleProduct (product_id : value) (db : Store) :
  run client_query (getSingleProduct product_id) db =
    match to_integer product_id with
    | inl e =>
        (db, [[LogString "ERROR FETCHING PRODUCT: "; LogError e]],
         Failure (message e))
    | inr k =>
        match filter (has_id k) (table db) with
        | [] => (db, [[LogString "Item not found"]], Failure "Item not found")
        | r :: _ => (db, [], SuccessItem (Some r))
        end
    end.
Proof.
  cbn [run getSingleProduct try_query]. unfold client_query.
  rewrite parse_select_one. cbn [exec param lookup list_lookup and_then].
  destruct (to_integer product_id) as [e|k]; [reflexivity|].
  cbn. destruct (filter (has_id k) (table db)); reflexivity.
Qed.

Lemma StronglySorted_lookup_lt {A} (R : relation A) (l : list A) :
  StronglySorted R l →
  ∀ i j x y, (i < j)%nat → l !! i = Some x → l !! j = Some y → R x y.
Proof.
  induction 1 as [|a l Hsorted IH Hall]; intros i j x y Hlt Hi Hj.
  - rewrite lookup_nil in Hi. discriminate.
  - destruct j as [|j]; [lia|]. cbn in Hj. destruct i as [|i].
    + cbn in Hi. injection Hi as <-.
      rewrite Forall_forall in Hall. apply Hall.
      eapply list_elem_of_lookup_2. eassumption.
    + cbn in Hi. apply (IH i j); [lia|assumption|assumption].
Qed.

Lemma param_product_id (product_id : value) (data : gmap string value) :
  param ((get data <$> supplied data) ++ [product_id]) (S (length (supplied data)))
  = inr product_id.
Proof.
  cbn [param]. rewrite lookup_app_r by (rewrite length_fmap; lia).
  rewrite length_fmap, Nat.sub_diag. reflexivity.
Qed.

(** A successful [updateProduct]: the assignments and the id were accepted,
    some row is under the id, the rows under the id are rewritten by the
    assignments and the others are kept, and the envelope carries the
    first rewritten row. *)
Lemma run_updateProduct_success (product_id : value) (data : gmap string value)
    (db : Store) :
  success (run client_query (updateProduct product_id data) db).2 = true →
  ∃ (f : Row.t → Row.t) (k : Z) (r0 : Row.t),
    assignments (numbered (supplied_columns data))
                ((get data <$> supplied data) ++ [product_id]) = inr f
    ∧ to_integer product_id = inr k
    ∧ r0 ∈ table db ∧ Row.id r0 = k
    ∧ (run client_query (updateProduct product_id data) db).2
      = SuccessProduct (Some (f r0))
    ∧ table (run client_query (updateProduct product_id data) db).1.1
      = (λ r, if decide (has_id k r) then f r else r) <$> table db.
Proof.
  rewrite run_updateProduct.
  destruct (price_check data) as [e|[]]; [discriminate..|].
  destruct (decide (supplied data = [])); [discriminate|].
  cbn [exec]. rewrite param_product_id. cbn [and_then].
  destruct (assignments _ _) as [e|f]; [discriminate|].
  destruct (to_integer product_id) as [e|k]; [discriminate|].
  cbn. destruct (filter (has_id k) (table db)) as [|r0 rest] eqn:Hfil;
    [discriminate|].
  cbn. intros _. exists f, k, r0.
  assert (r0 ∈ filter (has_id k) (table db)) as Hin by (rewrite Hfil; left).
  apply list_elem_of_filter in Hin as [Hid Hin].
  repeat (split; [first [reflexivity|assumption]|]). reflexivity.
Qed.

End StoreFacts.

Section Claims.
Context `{Runtime} `{Driver}.

(** C1 (amended).  For every id and every partial-update input whose price
    is truthy and [<= 0] (any negative number, for one), [updateProduct]
    returns the failure envelope with the message "Price must be a positive
    number.", sends no statement, and leaves the store of any client as it
    was. *)
Theorem updateProduct_rejects_truthy_nonpositive_price
    (product_id : value) (data : gmap string value) :
  truthy (get data "price") = true →
  js_le (get data "price") pos_zero = inr true →
  updateProduct product_id data
    = Return (Failure "Price must be a positive number.")
  ∧ request (updateProduct product_id data) = None
  ∧ ∀ (S : Type) (query : string → list value → S → S * (Error + QueryResult))
      (st : S),
      run query (updateProduct product_id data) st
      = (st, [], Failure "Price must be a positive number.").
Proof.
  intros Ht Hle.
  assert (updateProduct product_id data
          = Return (Failure "Price must be a positive number.")) as Heq.
  { rewrite updateProduct_unfold, (price_check_truthy data Ht), Hle.
    reflexivity. }
  rewrite Heq. repeat split.
Qed.

(** C5.  For every id and every partial-update input none of whose
    recognized properties (name, description, price, category_id,
    image_url) is truthy, [updateProduct] returns the failure envelope "No
    fields to update.", sends no statement and leaves the store of any
    client as it was. *)
Theorem updateProduct_rejects_empty_update
    (product_id : value) (data : gmap string value) :
  (∀ key, key ∈ updatable → truthy (get data key) = false) →
  updateProduct product_id data = Return (Failure "No fields to update.")
  ∧ request (updateProduct product_id data) = None
  ∧ ∀ (S : Type) (query : string → list value → S → S * (Error + QueryResult))
      (st : S),
      run query (updateProduct product_id data) st
      = (st, [], Failure "No fields to update.").
Proof.
  intros Hall.
  assert (updateProduct product_id data = Return (Failure "No fields to update."))
    as Heq.
  { rewrite updateProduct_unfold.
    rewrite price_check_falsy by (apply Hall; unfold updatable; listed).
    assert (supplied data = []) as ->; [|reflexivity].
    unfold supplied. unfold updatable in *. cbn [List.filter].
    rewrite !Hall by listed. reflexivity. }
  rewrite Heq. repeat split.
Qed.

(** C9.  For every partial-update input that passes validation (the price
    is not rejected and some recognized property is truthy), with [keys]
    the [k] truthy properties in source order: [updateProduct] sends the
    statement whose [SET] clause is [key_i = $i] for the i-th key, whose
    values array holds the value of the i-th key at position i and
    [product_id] last, at position [k+1], and whose [WHERE] clause uses
    [$(k+1)].  The store's parser reads the text back as exactly these
    assignments and this placeholder. *)
Theorem update_statement_well_formed
    (product_id : value) (data : gmap string value) :
  price_check data = inr false →
  supplied data ≠ [] →
  ∃ (fields : list string) (values : list value),
    request (updateProduct product_id data) = Some (UPDATE_SQL fields, values)
    ∧ length fields = length (supplied data)
    ∧ length values = S (length (supplied data))
    ∧ (∀ i key, supplied data !! i = Some key →
         fields !! i = Some (key +:+ " = $" +:+ pretty (S i))
         ∧ values !! i = Some (get data key))
    ∧ values !! length (supplied data) = Some product_id
    ∧ last values = Some product_id
    ∧ parse (UPDATE_SQL fields)
      = Some (Update (numbered (supplied_columns data))
                     (S (length (supplied data)))).
Proof.
  intros Hprice Hne.
  exists (set_clause (supplied data)), ((get data <$> supplied data) ++ [product_id]).
  rewrite updateProduct_unfold, Hprice.
  destruct (decide (supplied data = [])) as [|_]; [contradiction|].
  split; [reflexivity|].
  split; [unfold set_clause; apply length_imap|].
  split; [rewrite length_app, length_fmap; cbn; lia|].
  split.
  { intros i key Hi. split.
    - unfold set_clause. rewrite list_lookup_imap, Hi. cbn.
      replace (i + 1)%nat with (S i) by lia. reflexivity.
    - rewrite lookup_app_l by (rewrite length_fmap; eapply lookup_lt_Some; eassumption).
      rewrite list_lookup_fmap, Hi. reflexivity. }
  split.
  { rewrite lookup_app_r by (rewrite length_fmap; lia).
    rewrite length_fmap, Nat.sub_diag. reflexivity. }
  split; [apply last_snoc|].
  apply parse_update_supplied. assumption.
Qed.

(** C4.  For every partial-update input and every property whose value is
    falsy (price 0 and the empty name are such values), [updateProduct]
    does exactly what it does on the input without that property: the
    property is not among the keys of the [SET] clause, a falsy price is
    not rejected by the price check, and, against the store, every row
    keeps its cell under the property's column. *)
Theorem updateProduct_treats_falsy_as_absent
    (product_id : value) (data : gmap string value) (key : string) :
  truthy (get data key) = false →
  updateProduct product_id data = updateProduct product_id (delete key data)
  ∧ (key ∉ supplied data)
  ∧ (∀ text values sets n c,
       request (updateProduct product_id data) = Some (text, values) →
       parse text = Some (Update sets n) →
       column_name c = key → c ∉ sets.*1)
  ∧ (key = "price" → price_check data = inr false)
  ∧ (∀ (db : Store) (c : column), column_name c = key →
       Forall2 (λ r r', cell c r' = cell c r)
         (table db)
         (table (run client_query (updateProduct product_id data) db).1.1))
  ∧ truthy (VNumber pos_zero) = false
  ∧ truthy (VString "") = false.
Proof.
  intros Hf.
  assert (key ∉ supplied data) as Hnot.
  { rewrite supplied_truthy. intros [_ Ht]. congruence. }
  assert (∀ c, column_name c = key → c ∉ supplied_columns data) as Hcol.
  { intros c <-. rewrite supplied_columns_truthy. intros [_ Ht]. congruence. }
  split; [symmetry; apply updateProduct_delete_falsy; assumption|].
  split; [assumption|].
  split.
  { intros text values sets n c Hreq Hparse Hc.
    rewrite updateProduct_unfold in Hreq.
    destruct (price_check data) as [e'|[]]; [discriminate..|].
    destruct (decide (supplied data = [])) as [|Hne]; [discriminate|].
    cbn [request] in Hreq. injection Hreq as <- <-.
    rewrite (parse_update_supplied data Hne) in Hparse.
    injection Hparse as <- <-. rewrite numbered_columns. auto. }
  split.
  { intros ->. apply price_check_falsy. assumption. }
  split; [|split; reflexivity].
  intros db c Hc. apply updateProduct_frame. auto.
Qed.

Lemma createProduct_catches name description price category_id image_url :
  catches (createProduct name description price category_id image_url).
Proof.
  intros S query st st' text values e Hreq Hq. injection Hreq as <- <-.
  eexists. cbn [run createProduct try_query]. rewrite Hq. reflexivity.
Qed.

Lemma getProducts_catches : catches getProducts.
Proof.
  intros S query st st' text values e Hreq Hq. injection Hreq as <- <-.
  eexists. cbn [run getProducts try_query]. rewrite Hq. reflexivity.
Qed.

Lemma getSingleProduct_catches product_id : catches (getSingleProduct product_id).
Proof.
  intros S query st st' text values e Hreq Hq. injection Hreq as <- <-.
  eexists. cbn [run getSingleProduct try_query]. rewrite Hq. reflexivity.
Qed.

Lemma updateProduct_catches product_id data :
  catches (updateProduct product_id data).
Proof.
  intros S query st st' text values e Hreq Hq.
  rewrite updateProduct_unfold in Hreq |- *.
  destruct (price_check data) as [e'|[]]; [discriminate..|].
  destruct (decide (supplied data = [])); [discriminate|].
  injection Hreq as <- <-.
  eexists. cbn [run]. rewrite Hq. reflexivity.
Qed.

Lemma deleteProduct_catches product_id : catches (deleteProduct product_id).
Proof.
  intros S query st st' text values e Hreq Hq. injection Hreq as <- <-.
  eexists. cbn [run deleteProduct try_query]. rewrite Hq. reflexivity.
Qed.

(** C3.  Each of the five operations catches: for every input, whenever
    the call it makes to the client is rejected with an error, it logs the
    error and returns the failure envelope carrying the error's message.
    Nothing else in an operation can raise, and every run ends in an
    envelope.  Four operations always make their call; [updateProduct]
    makes it when validation passes. *)
Theorem operations_catch_store_errors :
  (∀ name description price category_id image_url,
     request (createProduct name description price category_id image_url)
     = Some (INSERT_SQL, [name; description; price; category_id; image_url])
     ∧ catches (createProduct name description price category_id image_url))
  ∧ (request getProducts = Some (SELECT_ALL_SQL, []) ∧ catches getProducts)
  ∧ (∀ product_id,
       request (getSingleProduct product_id) = Some (SELECT_ONE_SQL, [product_id])
       ∧ catches (getSingleProduct product_id))
  ∧ (∀ product_id data, catches (updateProduct product_id data))
  ∧ (∀ product_id,
       request (deleteProduct product_id) = Some (DELETE_SQL, [product_id])
       ∧ catches (deleteProduct product_id)).
Proof.
  split; [intros; split; [reflexivity|apply createProduct_catches]|].
  split; [split; [reflexivity|apply getProducts_catches]|].
  split; [intros; split; [reflexivity|apply getSingleProduct_catches]|].
  split; [intros; apply updateProduct_catches|].
  intros; split; [reflexivity|apply deleteProduct_catches].
Qed.

(** C10.  The not-found message is not uniform.  Whenever the client
    answers with zero rows, [getSingleProduct] fails with "Item not found"
    and [updateProduct] with "Product not found."; whenever it answers with
    a row count of zero, [deleteProduct] fails with "Product not found.".
    The two messages are different texts. *)
Theorem not_found_messages
    (S : Type) (query : string → list value → S → S * (Error + QueryResult))
    (st st' : S) (product_id : value) (res : QueryResult) :
  (query SELECT_ONE_SQL [product_id] st = (st', inr res) → rows res = [] →
     (run query (getSingleProduct product_id) st).2 = Failure "Item not found")
  ∧ (∀ data text values,
       request (updateProduct product_id data) = Some (text, values) →
       query text values st = (st', inr res) → rows res = [] →
       (run query (updateProduct product_id data) st).2
       = Failure "Product not found.")
  ∧ (query DELETE_SQL [product_id] st = (st', inr res) → rowCount res = 0%nat →
       (run query (deleteProduct product_id) st).2 = Failure "Product not found.")
  ∧ String.eqb "Item not found" "Product not found." = false.
Proof.
  split; [|split; [|split; [|reflexivity]]].
  - intros Hq Hrows. cbn [run getSingleProduct try_query]. rewrite Hq, Hrows.
    reflexivity.
  - intros data text values Hreq Hq Hrows.
    rewrite updateProduct_unfold in Hreq |- *.
    destruct (price_check data) as [e'|[]]; [discriminate..|].
    destruct (decide (supplied data = [])); [discriminate|].
    injection Hreq as <- <-. cbn [run]. rewrite Hq. cbn. rewrite Hrows.
    reflexivity.
  - intros Hq Hcount. cbn [run deleteProduct try_query]. rewrite Hq. cbn.
    rewrite Hcount. reflexivity.
Qed.

(** C6.  For every id, [getSingleProduct] run against the store returns
    the success envelope carrying the first row under that id when there is
    one (the row under that id, when ids are distinct), and the failure
    envelope "Item not found" when no row is under it; an id the store
    rejects gives the failure envelope of the store's error.  The store is
    left as it was, and every case ends in an envelope. *)
Theorem getSingleProduct_found_or_not_found (product_id : value) (db : Store) :
  run client_query (getSingleProduct product_id) db =
    match to_integer product_id with
    | inl e =>
        (db, [[LogString "ERROR FETCHING PRODUCT: "; LogError e]],
         Failure (message e))
    | inr k =>
        match filter (has_id k) (table db) with
        | [] => (db, [[LogString "Item not found"]], Failure "Item not found")
        | r :: _ => (db, [], SuccessItem (Some r))
        end
    end
  ∧ (∀ k r, to_integer product_id = inr k →
       NoDup (Row.id <$> table db) → r ∈ table db → Row.id r = k →
       (run client_query (getSingleProduct product_id) db).2
       = SuccessItem (Some r))
  ∧ (∀ k, to_integer product_id = inr k →
       (∀ r, r ∈ table db → Row.id r ≠ k) →
       (run client_query (getSingleProduct product_id) db).2
       = Failure "Item not found").
Proof.
  split; [apply run_getSingleProduct|]. split.
  - intros k r Hk Hnd Hin Hid. rewrite run_getSingleProduct, Hk.
    rewrite (filter_unique_id k _ r Hnd Hin Hid). reflexivity.
  - intros k Hk Hnone. rewrite run_getSingleProduct, Hk.
    replace (filter (has_id k) (table db)) with (@nil Row.t); [reflexivity|].
    symmetry. apply filter_empty_not_exists. rewrite Exists_exists.
    intros [r [Hin Hid]]. exact (Hnone r Hin Hid).
Qed.

(** C7.  For every id, [deleteProduct] run against the store removes every
    row under that id and returns the success envelope without payload
    when some row was under it, and returns the failure envelope "Product
    not found." and leaves the store as it was when none was; an id the
    store rejects gives the failure envelope of the store's error. *)
Theorem deleteProduct_deletes_or_not_found (product_id : value) (db : Store) :
  run client_query (deleteProduct product_id) db =
    match to_integer product_id with
    | inl e =>
        (db, [[LogString "ERROR DELETING PRODUCT: "; LogError e]],
         Failure (message e))
    | inr k =>
        if decide (Exists (has_id k) (table db)) then
          ({| table := filter (λ r, ¬ has_id k r) (table db);
              next_id := next_id db;
              clock := clock db |}, [], Success)
        else (db, [], Failure "Product not found.")
    end.
Proof.
  cbn [run deleteProduct try_query]. unfold client_query.
  rewrite parse_delete. cbn [exec param lookup list_lookup and_then].
  destruct (to_integer product_id) as [e|k]; [reflexivity|].
  cbn [run rowCount].
  destruct (decide (Exists (has_id k) (table db))) as [Hex|Hno].
  - destruct (decide (length (filter (has_id k) (table db)) = 0%nat)) as [Hlen|_];
      [|reflexivity].
    exfalso. apply length_zero_iff_nil, filter_empty_not_exists in Hlen. auto.
  - apply filter_empty_not_exists in Hno as Hnil. rewrite Hnil. cbn.
    rewrite (filter_none_matching k _ Hnil). destruct db; reflexivity.
Qed.

(** C8.  [getProducts] run against the store returns the success envelope
    carrying every row of the table, each once (no filter, limit or page),
    ordered by [created_at] descending, and leaves the store as it was. *)
Theorem getProducts_lists_all_newest_first (db : Store) :
  ∃ listed : list Row.t,
    run client_query getProducts db = (db, [], SuccessProducts listed)
    ∧ listed ≡ₚ table db
    ∧ StronglySorted created_desc listed
    ∧ (∀ i j r1 r2, (i < j)%nat → listed !! i = Some r1 → listed !! j = Some r2 →
         (Row.created_at r2 ≤ Row.created_at r1)%Z).
Proof.
  exists (merge_sort created_desc (table db)).
  split.
  { cbn [run getProducts try_query]. unfold client_query.
    rewrite parse_select_all. reflexivity. }
  split; [apply merge_sort_Permutation|].
  pose proof (StronglySorted_merge_sort created_desc (table db)) as Hsorted.
  split; [assumption|].
  intros i j r1 r2 Hlt Hi Hj.
  exact (StronglySorted_lookup_lt created_desc _ Hsorted i j r1 r2 Hlt Hi Hj).
Qed.

(** C2.  For every store and every partial-update input, a successful
    [updateProduct] rewrites rows in place: the table keeps its length, and
    every row keeps its id, its timestamps and the cell of every property
    the input does not supply.  Rows under another id are kept whole, and
    the envelope carries a row of the new table under the requested id. *)
Theorem updateProduct_changes_only_supplied_fields
    (product_id : value) (data : gmap string value) (db : Store) :
  success (run client_query (updateProduct product_id data) db).2 = true →
  length (table (run client_query (updateProduct product_id data) db).1.1)
  = length (table db)
  ∧ (∀ i r, table db !! i = Some r →
       ∃ r', table (run client_query (updateProduct product_id data) db).1.1 !! i
             = Some r'
         ∧ Row.id r' = Row.id r
         ∧ (data !! "name" = None → Row.name r' = Row.name r)
         ∧ (data !! "description" = None → Row.description r' = Row.description r)
         ∧ (data !! "price" = None → Row.price r' = Row.price r)
         ∧ (data !! "category_id" = None → Row.category_id r' = Row.category_id r)
         ∧ (data !! "image_url" = None → Row.image_url r' = Row.image_url r)
         ∧ Row.created_at r' = Row.created_at r
         ∧ Row.updated_at r' = Row.updated_at r
         ∧ (∀ k, to_integer product_id = inr k → Row.id r ≠ k → r' = r))
  ∧ (∃ k r', to_integer product_id = inr k
       ∧ (run client_query (updateProduct product_id data) db).2
         = SuccessProduct (Some r')
       ∧ r' ∈ table (run client_query (updateProduct product_id data) db).1.1
       ∧ Row.id r' = k).
Proof.
  intros Hok.
  assert (∀ c, (c ∈ data_columns → data !! column_name c = None) →
               Forall2 (λ r r', cell c r' = cell c r) (table db)
                 (table (run client_query (updateProduct product_id data) db).1.1))
    as Hframe.
  { intros c Hc. apply updateProduct_frame. rewrite supplied_columns_truthy.
    intros [Hin Ht]. unfold get in Ht. rewrite (Hc Hin) in Ht. discriminate. }
  assert (∀ c, c ∉ data_columns →
               Forall2 (λ r r', cell c r' = cell c r) (table db)
                 (table (run client_query (updateProduct product_id data) db).1.1))
    as Hfixed.
  { intros c Hc. apply Hframe. intros Hin. contradiction. }
  destruct (run_updateProduct_success product_id data db Hok)
    as (f & k & r0 & Hf & Hk & Hin0 & Hid0 & Henv & Htable).
  destruct fixed_columns_not_data as (Hnot_id & Hnot_created & Hnot_updated).
  split; [symmetry; eapply Forall2_length, (Hfixed c_id); assumption|].
  split.
  - intros i r Hr.
    destruct (Forall2_lookup_l _ _ _ i r (Hfixed c_id Hnot_id) Hr)
      as (r' & Hr' & Hid).
    exists r'. split; [assumption|].
    split; [cbn in Hid; congruence|].
    split; [intros Hnone;
      pose proof (Forall2_lookup_lr _ _ _ i r r' (Hframe c_name (λ _, Hnone)) Hr Hr') as Hc;
      cbn in Hc; congruence|].
    split; [intros Hnone;
      pose proof (Forall2_lookup_lr _ _ _ i r r' (Hframe c_description (λ _, Hnone)) Hr Hr') as Hc;
      cbn in Hc; congruence|].
    split; [intros Hnone;
      pose proof (Forall2_lookup_lr _ _ _ i r r' (Hframe c_price (λ _, Hnone)) Hr Hr') as Hc;
      cbn in Hc; congruence|].
    split; [intros Hnone;
      pose proof (Forall2_lookup_lr _ _ _ i r r' (Hframe c_category_id (λ _, Hnone)) Hr Hr') as Hc;
      cbn in Hc; congruence|].
    split; [intros Hnone;
      pose proof (Forall2_lookup_lr _ _ _ i r r' (Hframe c_image_url (λ _, Hnone)) Hr Hr') as Hc;
      cbn in Hc; congruence|].
    split; [pose proof (Forall2_lookup_lr _ _ _ i r r'
               (Hfixed c_created_at Hnot_created) Hr Hr') as Hc;
            cbn in Hc; congruence|].
    split; [pose proof (Forall2_lookup_lr _ _ _ i r r'
               (Hfixed c_updated_at Hnot_updated) Hr Hr') as Hc;
            cbn in Hc; congruence|].
    intros k' Hk' Hne. rewrite Hk in Hk'. injection Hk' as <-.
    rewrite Htable, list_lookup_fmap, Hr in Hr'. cbn in Hr'.
    destruct (decide (has_id k r)) as [Hid'|_]; [contradiction|]. congruence.
  - exists k, (f r0). split; [assumption|]. split; [assumption|].
    assert (Row.id (f r0) = Row.id r0) as Hsame.
    { pose proof (assignments_frame _ _ f c_id Hf) as Hc.
      rewrite numbered_columns in Hc.
      assert (c_id ∉ supplied_columns data) as Hnot.
      { rewrite supplied_columns_truthy. intros [Hin _]. contradiction. }
      specialize (Hc Hnot r0). cbn in Hc. congruence. }
    split; [|congruence].
    rewrite Htable. apply list_elem_of_fmap. exists r0.
    split; [|assumption].
    destruct (decide (has_id k r0)) as [_|Hno]; [reflexivity|contradiction].
Qed.

End Claims.

(** ** The claims at concrete inputs *)

Section Instances.
Local Existing Instance integers_only.
Local Existing Instance plain_driver.

(** A price of -5 is truthy and [<= 0]: the update is rejected. *)
Lemma negative_price_is_rejected :
  (truthy (get negative_price_payload "price") = true
   ∧ js_le (get negative_price_payload "price") pos_zero = inr true)
  ∧ updateProduct (VNumber (of_Z 1)) negative_price_payload
    = Return (Failure "Price must be a positive number.")
  ∧ run client_query (updateProduct (VNumber (of_Z 1)) negative_price_payload) shop
    = (shop, [], Failure "Price must be a positive number.").
Proof.
  split; [split; vm_compute; reflexivity|].
  destruct (updateProduct_rejects_truthy_nonpositive_price
              (VNumber (of_Z 1)) negative_price_payload)
    as (Heq & _ & Hrun); [vm_compute; reflexivity ..|].
  split; [exact Heq|apply Hrun].
Defined.

(** C1 as stated fails at a price of 0: the price is present and [<= 0],
    yet the statement [UPDATE products SET name = $1 WHERE id = $2] is
    sent, the stored row is renamed and the envelope is a success. *)
Lemma zero_price_is_not_rejected :
  zero_price_payload !! "price" = Some (VNumber pos_zero)
  ∧ js_le (VNumber pos_zero) pos_zero = inr true
  ∧ request (updateProduct (VNumber (of_Z 1)) zero_price_payload)
    = Some (UPDATE_SQL ["name = $1"], [VString "x"; VNumber (of_Z 1)])
  ∧ run client_query (updateProduct (VNumber (of_Z 1)) zero_price_payload) shop
    = (shop_with_renamed_mug, [], SuccessProduct (Some renamed_mug)).
Proof. repeat split; vm_compute; reflexivity. Qed.

(** Updating only the description of product 1 succeeds and keeps the
    other cells. *)
Lemma update_description_only :
  success (run client_query
             (updateProduct (VNumber (of_Z 1)) description_payload) shop).2 = true
  ∧ ∃ r', table (run client_query
                   (updateProduct (VNumber (of_Z 1)) description_payload) shop).1.1
            !! 0%nat = Some r'
      ∧ Row.description r' = VString "Big mug"
      ∧ Row.id r' = 1%Z
      ∧ Row.name r' = VString "Mug"
      ∧ Row.price r' = Row.price mug.
Proof.
  split; [vm_compute; reflexivity|].
  destruct (updateProduct_changes_only_supplied_fields
              (VNumber (of_Z 1)) description_payload shop)
    as (_ & Hrows & _); [vm_compute; reflexivity|].
  destruct (Hrows 0%nat mug eq_refl)
    as (r' & Hr' & Hid & Hname & _ & Hprice & _).
  exists r'. split; [exact Hr'|].
  split; [vm_compute in Hr'; injection Hr' as <-; reflexivity|].
  split; [exact Hid|].
  split; [apply Hname; vm_compute; reflexivity|].
  apply Hprice; vm_compute; reflexivity.
Defined.

(** A lost connection while deleting or creating is logged and returned. *)
Lemma lost_connection_is_caught :
  (∃ label,
     run (rejecting connection_lost) (deleteProduct (VNumber (of_Z 1))) tt
     = (tt, [[LogString label; LogError connection_lost]],
        Failure "Connection terminated"))
  ∧ (∃ label,
       run (rejecting connection_lost)
           (updateProduct (VNumber (of_Z 1)) description_payload) tt
       = (tt, [[LogString label; LogError connection_lost]],
          Failure "Connection terminated")).
Proof.
  destruct operations_catch_store_errors as (_ & _ & _ & Hupd & Hdel).
  split.
  - destruct (Hdel (VNumber (of_Z 1))) as [Hreq Hcatch].
    exact (Hcatch unit (rejecting connection_lost) tt tt _ _ connection_lost
             Hreq eq_refl).
  - refine (Hupd (VNumber (of_Z 1)) description_payload unit
              (rejecting connection_lost) tt tt
              (UPDATE_SQL ["description = $1"])
              [VString "Big mug"; VNumber (of_Z 1)] connection_lost _ eq_refl).
    vm_compute; reflexivity.
Defined.

(** A price of 0 next to a name: the update is the update of the name. *)
Lemma zero_price_is_absent :
  truthy (get zero_price_payload "price") = false
  ∧ updateProduct (VNumber (of_Z 1)) zero_price_payload
    = updateProduct (VNumber (of_Z 1)) (delete "price" zero_price_payload)
  ∧ price_check zero_price_payload = inr false.
Proof.
  split; [vm_compute; reflexivity|].
  destruct (updateProduct_treats_falsy_as_absent
              (VNumber (of_Z 1)) zero_price_payload "price")
    as (Heq & _ & _ & Hprice & _); [vm_compute; reflexivity|].
  split; [exact Heq|exact (Hprice eq_refl)].
Defined.

(** An unrecognized property and an empty name: nothing to update. *)
Lemma unrecognized_payload_is_rejected :
  (∀ key, key ∈ updatable → truthy (get unrecognized_payload key) = false)
  ∧ updateProduct (VNumber (of_Z 1)) unrecognized_payload
    = Return (Failure "No fields to update.")
  ∧ run client_query (updateProduct (VNumber (of_Z 1)) unrecognized_payload) shop
    = (shop, [], Failure "No fields to update.").
Proof.
  assert (∀ key, key ∈ updatable → truthy (get unrecognized_payload key) = false)
    as Hall.
  { intros key Hin. unfold updatable in Hin.
    repeat (apply elem_of_cons in Hin as [->|Hin]; [vm_compute; reflexivity|]).
    inversion Hin. }
  split; [exact Hall|].
  destruct (updateProduct_rejects_empty_update
              (VNumber (of_Z 1)) unrecognized_payload Hall) as (Heq & _ & Hrun).
  split; [exact Heq|apply Hrun].
Defined.

(** A name and a price: [SET name = $1, price = $2 WHERE id = $3]. *)
Lemma name_and_price_statement :
  (price_check name_and_price_payload = inr false
   ∧ supplied name_and_price_payload = ["name"; "price"])
  ∧ ∃ fields values,
      request (updateProduct (VString "1") name_and_price_payload)
      = Some (UPDATE_SQL fields, values)
      ∧ fields !! 1%nat = Some "price = $2"
      ∧ values !! 1%nat = Some (VNumber (of_Z 12))
      ∧ values !! 2%nat = Some (VString "1")
      ∧ parse (UPDATE_SQL fields) = Some (Update [(c_name, 1%nat); (c_price, 2%nat)] 3).
Proof.
  split; [split; vm_compute; reflexivity|].
  destruct (update_statement_well_formed (VString "1") name_and_price_payload)
    as (fields & values & Hreq & _ & _ & Hith & Hid & _ & Hparse);
    [vm_compute; reflexivity|vm_compute; discriminate|].
  exists fields, values.
  destruct (Hith 1%nat "price" ltac:(vm_compute; reflexivity)) as [Hfield Hvalue].
  repeat (split; [assumption|]). exact Hparse.
Defined.

(** No product 7 in the shop: the three operations and their messages. *)
Lemma product_seven_not_found :
  (run client_query (getSingleProduct (VString "7")) shop).2
  = Failure "Item not found"
  ∧ (run client_query (updateProduct (VString "7") description_payload) shop).2
    = Failure "Product not found."
  ∧ (run client_query (deleteProduct (VString "7")) shop).2
    = Failure "Product not found.".
Proof.
  destruct (not_found_messages Store client_query shop shop (VString "7") no_rows)
    as (Hget & Hupd & Hdel & _).
  split; [apply Hget; vm_compute; reflexivity|].
  split; [|apply Hdel; vm_compute; reflexivity].
  apply (Hupd description_payload (UPDATE_SQL ["description = $1"])
           [VString "Big mug"; VString "7"]); vm_compute; reflexivity.
Defined.

(** Product 2 is found, by number or by text. *)
Lemma product_two_found :
  (run client_query (getSingleProduct (VNumber (of_Z 2))) shop).2
  = SuccessItem (Some amp)
  ∧ (run client_query (getSingleProduct (VString "2")) shop).2
    = SuccessItem (Some amp).
Proof.
  split.
  - destruct (getSingleProduct_found_or_not_found (VNumber (of_Z 2)) shop)
      as (_ & Hfound & _).
    apply (Hfound 2%Z amp); [vm_compute; reflexivity| |listed|reflexivity].
    vm_compute. repeat constructor; intros Hin;
      repeat (apply elem_of_cons in Hin as [Heq|Hin]; [discriminate Heq|]);
      inversion Hin.
  - destruct (getSingleProduct_found_or_not_found (VString "2") shop)
      as (Hrun & _).
    rewrite Hrun. vm_compute. reflexivity.
Defined.

(** The example of the spec: creating a product returns the persisted row
    with the next id and the store's time. *)
Example create_pick :
  run client_query
    (createProduct (VString "Pick") (VString "Celluloid pick")
       (VNumber one) (VNumber (of_Z 3)) (VString "http://x/pick.png")) shop
  = ({| table :=
          [mug; amp;
           Row.mk 3 (VString "Pick") (VString "Celluloid pick") (VNumber one)
             (VNumber (of_Z 3)) (VString "http://x/pick.png") 300 300];
        next_id := 4; clock := 300 |},
     [],
     SuccessProduct
       (Some (Row.mk 3 (VString "Pick") (VString "Celluloid pick") (VNumber one)
                (VNumber (of_Z 3)) (VString "http://x/pick.png") 300 300))).
Proof. vm_compute. reflexivity. Qed.

(** Deleting product 2 succeeds; fetching it afterwards is not found. *)
Example delete_then_fetch :
  let '(db, _, deleted) := run client_query (deleteProduct (VNumber (of_Z 2))) shop in
  deleted = Success
  ∧ table db = [mug]
  ∧ (run client_query (getSingleProduct (VNumber (of_Z 2))) db).2
    = Failure "Item not found".
Proof. vm_compute. repeat split. Qed.

(** Listing the shop: the amp was created after the mug. *)
Example list_shop :
  (run client_query getProducts shop).2 = SuccessProducts [amp; mug].
Proof. vm_compute. reflexivity. Qed.

End Instances.

(** * Further properties of the operations *)

Section MoreFacts.
Context `{Runtime}.

Lemma get_insert (data : gmap string value) (key key' : string) (v : value) :
  get (<[key := v]> data) key' = if decide (key = key') then v else get data key'.
Proof.
  unfold get. destruct (decide (key = key')) as [->|Hne].
  - rewrite lookup_insert_eq. reflexivity.
  - rewrite lookup_insert_ne by assumption. reflexivity.
Qed.

Lemma get_insert_updatable (data : gmap string value) (key key' : string) (v : value) :
  key ∉ updatable → key' ∈ updatable → get (<[key := v]> data) key' = get data key'.
Proof.
  intros Hnot Hin. rewrite get_insert.
  destruct (decide (key = key')) as [->|_]; [contradiction|reflexivity].
Qed.

Lemma supplied_ext (data1 data2 : gmap string value) :
  (∀ key, key ∈ updatable → truthy (get data1 key) = truthy (get data2 key)) →
  supplied data1 = supplied data2.
Proof.
  intros Hsame. unfold supplied. apply filter_ext_in. intros key Hin.
  apply Hsame, list_elem_of_In. assumption.
Qed.

Lemma supplied_nil (data : gmap string value) :
  supplied data = [] ↔ ∀ key, key ∈ updatable → truthy (get data key) = false.
Proof.
  split.
  - intros Hnil key Hin. destruct (truthy (get data key)) eqn:Ht; [|reflexivity].
    assert (key ∈ supplied data) as Hs by (apply supplied_truthy; auto).
    rewrite Hnil in Hs. inversion Hs.
  - intros Hall. destruct (supplied data) as [|key l] eqn:Hs; [reflexivity|].
    assert (key ∈ supplied data) as Hin by (rewrite Hs; left).
    apply supplied_truthy in Hin as [Hin Ht]. rewrite (Hall key Hin) in Ht.
    discriminate.
Qed.

Lemma price_in_updatable : "price" ∈ updatable.
Proof. unfold updatable. listed. Qed.

(** The request of [updateProduct], case by case. *)
Lemma request_updateProduct product_id data :
  request (updateProduct product_id data) =
    match price_check data with
    | inr false =>
        if decide (supplied data = []) then None
        else Some (UPDATE_SQL (set_clause (supplied data)),
                   (get data <$> supplied data) ++ [product_id])
    | _ => None
    end.
Proof.
  rewrite updateProduct_unfold.
  destruct (price_check data) as [e|[]]; try reflexivity.
  destruct (decide (supplied data = [])); reflexivity.
Qed.

End MoreFacts.

Section Extras.
Context `{Runtime} `{Driver}.

(** X1.  [updateProduct] reads the five recognized properties only: adding
    or changing any other property of the input (an [id], a [created_at])
    changes nothing of what it does. *)
Theorem updateProduct_ignores_unrecognized
    (product_id : value) (data : gmap string value) (key : string) (v : value) :
  key ∉ updatable →
  updateProduct product_id (<[key := v]> data) = updateProduct product_id data.
Proof.
  intros Hnot. rewrite !updateProduct_unfold.
  assert (supplied (<[key := v]> data) = supplied data) as ->.
  { apply supplied_ext. intros key' Hin.
    rewrite get_insert_updatable by assumption. reflexivity. }
  assert (price_check (<[key := v]> data) = price_check data) as ->.
  { unfold price_check.
    rewrite (get_insert_updatable data key "price" v Hnot price_in_updatable).
    reflexivity. }
  replace (get (<[key := v]> data) <$> supplied data)
    with (get data <$> supplied data); [reflexivity|].
  apply list_fmap_ext. intros i key' Hi. symmetry.
  apply get_insert_updatable; [assumption|].
  apply list_elem_of_lookup_2, supplied_truthy in Hi. tauto.
Qed.

(** X2.  The validation of [updateProduct] has exactly three outcomes
    besides a thrown comparison.  It returns the price failure exactly when
    the price is truthy and [<= 0]; it returns "No fields to update."
    exactly when the price check passes and no recognized property is
    truthy; and it sends a statement exactly when the price check passes
    and some recognized property is truthy. *)
Theorem updateProduct_validation_outcomes
    (product_id : value) (data : gmap string value) :
  (updateProduct product_id data
   = Return (Failure "Price must be a positive number.")
   ↔ truthy (get data "price") = true
     ∧ js_le (get data "price") pos_zero = inr true)
  ∧ (updateProduct product_id data = Return (Failure "No fields to update.")
     ↔ price_check data = inr false
       ∧ ∀ key, key ∈ updatable → truthy (get data key) = false)
  ∧ (is_Some (request (updateProduct product_id data))
     ↔ price_check data = inr false
       ∧ ∃ key, key ∈ updatable ∧ truthy (get data key) = true).
Proof.
  split; [|split].
  - rewrite updateProduct_unfold. unfold price_check.
    destruct (truthy (get data "price")).
    + destruct (js_le (get data "price") pos_zero) as [e|[]].
      * split; [discriminate|]. intros [_ Hle]. discriminate.
      * split; auto.
      * split; [|intros [_ Hle]; discriminate].
        destruct (decide (supplied data = [])); discriminate.
    + split; [|intros [Ht _]; discriminate].
      destruct (decide (supplied data = [])); discriminate.
  - rewrite updateProduct_unfold, <- supplied_nil.
    destruct (price_check data) as [e|[]].
    + split; [discriminate|]. intros [Hp _]. discriminate.
    + split; [discriminate|]. intros [Hp _]. discriminate.
    + destruct (decide (supplied data = [])) as [Hnil|Hne].
      * split; auto.
      * split; [discriminate|]. intros [_ Hnil]. contradiction.
  - rewrite request_updateProduct.
    destruct (price_check data) as [e|[]].
    + split; [intros [x Hx]; discriminate|]. intros [Hp _]. discriminate.
    + split; [intros [x Hx]; discriminate|]. intros [Hp _]. discriminate.
    + destruct (decide (supplied data = [])) as [Hnil|Hne].
      * split; [intros [x Hx]; discriminate|].
        intros [_ (key & Hin & Ht)].
        rewrite (proj1 (supplied_nil data) Hnil key Hin) in Ht. discriminate.
      * split; [|intros _; eexists; reflexivity].
        intros _. split; [reflexivity|].
        destruct (supplied data) as [|key l] eqn:Hs; [contradiction|].
        exists key. apply supplied_truthy. rewrite Hs. left.
Qed.

(** X3.  The text of the statement [updateProduct] sends depends only on
    which recognized properties are truthy: the values of the input and
    the id reach the store through the values array, never through the
    SQL text. *)
Theorem update_text_ignores_values
    (id1 id2 : value) (data1 data2 : gmap string value)
    (text1 text2 : string) (values1 values2 : list value) :
  (∀ key, key ∈ updatable → truthy (get data1 key) = truthy (get data2 key)) →
  request (updateProduct id1 data1) = Some (text1, values1) →
  request (updateProduct id2 data2) = Some (text2, values2) →
  text1 = text2.
Proof.
  intros Hsame Hreq1 Hreq2.
  rewrite request_updateProduct in Hreq1, Hreq2.
  rewrite (supplied_ext data1 data2 Hsame) in Hreq1.
  destruct (price_check data1) as [e|[]]; try discriminate.
  destruct (price_check data2) as [e|[]]; try discriminate.
  destruct (decide (supplied data2 = [])); [discriminate|].
  congruence.
Qed.

(** X4.  The price check only rejects: a truthy price whose conversion to
    a number is NaN (a text that is no number, say) or is above 0 passes,
    and the value is sent to the store as it was given. *)
Theorem updateProduct_sends_unchecked_price
    (product_id : value) (data : gmap string value) (n : number) :
  truthy (get data "price") = true →
  ToNumber (get data "price") = inr n →
  n = NaN ∨ SFltb pos_zero n = true →
  ∃ text values,
    request (updateProduct product_id data) = Some (text, values)
    ∧ "price" ∈ supplied data
    ∧ get data "price" ∈ values.
Proof.
  intros Ht Hn Hpos.
  assert ("price" ∈ supplied data) as Hin.
  { apply supplied_truthy. split; [apply price_in_updatable|assumption]. }
  assert (price_check data = inr false) as Hcheck.
  { rewrite (price_check_truthy data Ht). unfold js_le. rewrite Hn.
    unfold IsLessThan. destruct Hpos as [->|Hlt]; [reflexivity|].
    unfold SFltb in Hlt. destruct (SFcompare pos_zero n) as [[]|];
      try discriminate. reflexivity. }
  rewrite request_updateProduct, Hcheck.
  destruct (decide (supplied data = [])) as [Hnil|_].
  { rewrite Hnil in Hin. inversion Hin. }
  eexists _, _. split; [reflexivity|]. split; [assumption|].
  apply elem_of_app. left. apply list_elem_of_fmap. exists "price". auto.
Qed.

(** X5.  When the comparison of the price with 0 throws (the price is an
    object that does not convert), [updateProduct] catches it: it sends no
    statement, logs the error and returns the failure envelope with the
    error's message, whatever the other properties are. *)
Theorem updateProduct_catches_thrown_conversion
    (product_id : value) (data : gmap string value) (e : Error) :
  truthy (get data "price") = true →
  js_le (get data "price") pos_zero = inl e →
  request (updateProduct product_id data) = None
  ∧ ∀ (S : Type) (query : string → list value → S → S * (Error + QueryResult))
      (st : S),
      run query (updateProduct product_id data) st
      = (st, [[LogString "ERROR UPDATING PRODUCT: "; LogError e]],
         Failure (message e)).
Proof.
  intros Ht Hle.
  rewrite (updateProduct_catches_thrown_comparison product_id data e Ht Hle).
  split; [reflexivity|]. intros S query st. reflexivity.
Qed.

(** X6.  The operations write to the console on failures only: whatever
    the client answers, a run that ends in a success envelope has written
    nothing. *)
Theorem operations_quiet_on_success :
  (∀ name description price category_id image_url,
     quiet_on_success (createProduct name description price category_id image_url))
  ∧ quiet_on_success getProducts
  ∧ (∀ product_id, quiet_on_success (getSingleProduct product_id))
  ∧ (∀ product_id data, quiet_on_success (updateProduct product_id data))
  ∧ (∀ product_id, quiet_on_success (deleteProduct product_id)).
Proof.
  split; [|split; [|split; [|split]]].
  - intros name description price category_id image_url S query st.
    cbn [run createProduct try_query].
    destruct (query _ _ st) as [st' [e|res]]; cbn; [discriminate|reflexivity].
  - intros S query st. cbn [run getProducts try_query].
    destruct (query _ _ st) as [st' [e|res]]; cbn; [discriminate|reflexivity].
  - intros product_id S query st. cbn [run getSingleProduct try_query].
    destruct (query _ _ st) as [st' [e|res]]; cbn; [discriminate|].
    destruct (decide (length (rows res) = 0%nat)); cbn; [discriminate|reflexivity].
  - intros product_id data S query st. rewrite updateProduct_unfold.
    destruct (price_check data) as [e|[]]; [discriminate..|].
    destruct (decide (supplied data = [])); [discriminate|].
    cbn [run].
    destruct (query _ _ st) as [st' [e|res]]; cbn; [discriminate|].
    destruct (decide (length (rows res) = 0%nat)); cbn; [discriminate|reflexivity].
  - intros product_id S query st. cbn [run deleteProduct try_query].
    destruct (query _ _ st) as [st' [e|res]]; cbn; [discriminate|].
    destruct (decide (rowCount res = 0%nat)); cbn; [discriminate|reflexivity].
Qed.

(** X7.  No operation calls the client twice: whatever the client answers,
    [createProduct], [getProducts], [getSingleProduct] and [deleteProduct]
    call it exactly once, and [updateProduct] calls it once when it sends a
    statement and not at all otherwise. *)
Theorem operations_call_client_once
    (S : Type) (query : string → list value → S → S * (Error + QueryResult))
    (st : S) :
  (∀ name description price category_id image_url,
     calls query (createProduct name description price category_id image_url) st
     = 1%nat)
  ∧ calls query getProducts st = 1%nat
  ∧ (∀ product_id, calls query (getSingleProduct product_id) st = 1%nat)
  ∧ (∀ product_id data,
       calls query (updateProduct product_id data) st
       = match request (updateProduct product_id data) with
         | Some _ => 1%nat
         | None => 0%nat
         end)
  ∧ (∀ product_id, calls query (deleteProduct product_id) st = 1%nat).
Proof.
  split; [|split; [|split; [|split]]].
  - intros. cbn [calls createProduct try_query].
    destruct (query _ _ st) as [st' [e|res]]; reflexivity.
  - cbn [calls getProducts try_query].
    destruct (query _ _ st) as [st' [e|res]]; reflexivity.
  - intros. cbn [calls getSingleProduct try_query].
    destruct (query _ _ st) as [st' [e|res]]; cbn; [reflexivity|].
    destruct (decide (length (rows res) = 0%nat)); reflexivity.
  - intros. rewrite updateProduct_unfold.
    destruct (price_check data) as [e|[]]; try reflexivity.
    destruct (decide (supplied data = [])); [reflexivity|].
    cbn [calls request].
    destruct (query _ _ st) as [st' [e|res]]; cbn; [reflexivity|].
    destruct (decide (length (rows res) = 0%nat)); reflexivity.
  - intros. cbn [calls deleteProduct try_query].
    destruct (query _ _ st) as [st' [e|res]]; cbn; [reflexivity|].
    destruct (decide (rowCount res = 0%nat)); reflexivity.
Qed.

End Extras.

Section MoreStoreFacts.
Context `{Runtime} `{Driver}.

(** The run of [createProduct] against the store: the five arguments are
    converted for the columns of the same names, in that order. *)
Lemma run_createProduct (name description price category_id image_url : value)
    (db : Store) :
  run client_query
      (createProduct name description price category_id image_url) db =
    match (x1 ←! to_cell c_name name;
           x2 ←! to_cell c_description description;
           x3 ←! to_cell c_price price;
           x4 ←! to_cell c_category_id category_id;
           x5 ←! to_cell c_image_url image_url;
           inr (Row.mk (next_id db) x1 x2 x3 x4 x5 (clock db) (clock db))) with
    | inl e =>
        (db, [[LogString "ERROR CREATING PRODUCT: "; LogError e]],
         Failure (message e))
    | inr r =>
        ({| table := table db ++ [r];
            next_id := next_id db + 1;
            clock := clock db |}, [], SuccessProduct (Some r))
    end.
Proof.
  cbn [run createProduct try_query]. unfold client_query.
  rewrite parse_insert. cbn.
  destruct (to_cell c_name name) as [e|x1]; [reflexivity|]. cbn.
  destruct (to_cell c_description description) as [e|x2]; [reflexivity|]. cbn.
  destruct (to_cell c_price price) as [e|x3]; [reflexivity|]. cbn.
  destruct (to_cell c_category_id category_id) as [e|x4]; [reflexivity|]. cbn.
  destruct (to_cell c_image_url image_url) as [e|x5]; reflexivity.
Qed.

Lemma run_getProducts (db : Store) :
  run client_query getProducts db
  = (db, [], SuccessProducts (merge_sort created_desc (table db))).
Proof.
  cbn [run getProducts try_query]. unfold client_query.
  rewrite parse_select_all. reflexivity.
Qed.

(** The run of [deleteProduct] against the store, case by case. *)
Lemma run_deleteProduct (product_id : value) (db : Store) :
  run client_query (deleteProduct product_id) db =
    match to_integer product_id with
    | inl e =>
        (db, [[LogString "ERROR DELETING PRODUCT: "; LogError e]],
         Failure (message e))
    | inr k =>
        if decide (filter (has_id k) (table db) = []) then
          (db, [], Failure "Product not found.")
        else
          ({| table := filter (λ r, ¬ has_id k r) (table db);
              next_id := next_id db;
              clock := clock db |}, [], Success)
    end.
Proof.
  cbn [run deleteProduct try_query]. unfold client_query.
  rewrite parse_delete. cbn [exec param lookup list_lookup and_then].
  destruct (to_integer product_id) as [e|k]; [reflexivity|].
  cbn [run rowCount].
  destruct (decide (filter (has_id k) (table db) = [])) as [Hnil|Hne].
  - rewrite Hnil. cbn. rewrite (filter_none_matching k _ Hnil).
    destruct db; reflexivity.
  - destruct (decide (length (filter (has_id k) (table db)) = 0%nat)) as [Hlen|_];
      [|reflexivity].
    apply length_zero_iff_nil in Hlen. contradiction.
Qed.

Lemma filter_after_delete (k : Z) (l : list Row.t) :
  filter (has_id k) (filter (λ r, ¬ has_id k r) l) = [].
Proof.
  apply filter_empty_not_exists. rewrite Exists_exists.
  intros [r [Hin Hid]]. apply list_elem_of_filter in Hin as [Hno _]. auto.
Qed.

(** Two rows with the same cells are the same row. *)
Lemma row_ext (r1 r2 : Row.t) : (∀ c, cell c r1 = cell c r2) → r1 = r2.
Proof.
  intros Hcells. destruct r1, r2.
  pose proof (Hcells c_id) as H1. pose proof (Hcells c_name) as H2.
  pose proof (Hcells c_description) as H3. pose proof (Hcells c_price) as H4.
  pose proof (Hcells c_category_id) as H5. pose proof (Hcells c_image_url) as H6.
  pose proof (Hcells c_created_at) as H7. pose proof (Hcells c_updated_at) as H8.
  cbn in *. congruence.
Qed.

Lemma set_column_data (c : column) (v : value) (f : Row.t → Row.t) :
  c ∈ data_columns → set_column c v = inr f →
  ∃ x, to_cell c v = inr x ∧ ∀ r, cell c (f r) = inl x.
Proof.
  intros Hin Hset.
  destruct c; cbn in Hset;
    try (exfalso; destruct fixed_columns_not_data as (? & ? & ?); contradiction);
    destruct (to_cell _ v) as [e|x]; cbn in Hset; try discriminate;
    injection Hset as <-; exists x; split; reflexivity.
Qed.

(** What the assignments [c_i = $(off+i)] write: each column gets the
    conversion of the value bound to its placeholder. *)
Lemma assignments_write (cols : list column) (off : nat) (values : list value)
    (f : Row.t → Row.t) :
  NoDup cols → (∀ c, c ∈ cols → c ∈ data_columns) →
  assignments (imap (λ i c, (c, Datatypes.S (off + i))) cols) values = inr f →
  ∀ i c, cols !! i = Some c →
    ∃ v x, values !! (off + i)%nat = Some v ∧ to_cell c v = inr x
           ∧ ∀ r, cell c (f r) = inl x.
Proof.
  revert off f. induction cols as [|c0 cols IH]; intros off f Hnd Hdata Hf i c Hi.
  - rewrite lookup_nil in Hi. discriminate.
  - apply NoDup_cons in Hnd as [Hfresh Hnd]. cbn [imap assignments] in Hf.
    unfold param in Hf. rewrite Nat.add_0_r in Hf.
    destruct (values !! off) as [v0|] eqn:Hv0; [|discriminate]. cbn in Hf.
    destruct (set_column c0 v0) as [|f0] eqn:Hf0; [discriminate|]. cbn in Hf.
    destruct (assignments _ values) as [|g] eqn:Hg; [discriminate|]. cbn in Hf.
    injection Hf as <-.
    rewrite (imap_ext _ (λ i c, (c, Datatypes.S (Datatypes.S off + i))))
      in Hg by (intros j x _; cbn; f_equal; lia).
    destruct i as [|i].
    + cbn in Hi. injection Hi as <-.
      destruct (set_column_data c0 v0 f0 (Hdata c0 ltac:(left)) Hf0)
        as (x & Hx & Hcell).
      exists v0, x. rewrite Nat.add_0_r. split; [assumption|]. split; [assumption|].
      intros r. rewrite <- (Hcell r).
      apply (assignments_frame _ _ g c0 Hg).
      rewrite (imap_fst_id (λ j, Datatypes.S (Datatypes.S off + j))). assumption.
    + cbn in Hi.
      destruct (IH (Datatypes.S off) g Hnd
                  (λ c' Hin, Hdata c' ltac:(right; exact Hin)) Hg i c Hi)
        as (v & x & Hv & Hx & Hcell).
      exists v, x. replace (off + Datatypes.S i)%nat with (Datatypes.S off + i)%nat by lia.
      split; [assumption|]. split; [assumption|]. intros r. apply Hcell.
Qed.

Lemma supplied_columns_NoDup (data : gmap string value) :
  NoDup (supplied_columns data).
Proof.
  unfold supplied_columns. apply NoDup_ListNoDup, List.NoDup_filter, NoDup_ListNoDup.
  unfold data_columns. repeat (apply NoDup_cons; split;
    [intros Hin; repeat (apply elem_of_cons in Hin as [Heq|Hin]; [discriminate Heq|]);
     inversion Hin|]).
  apply NoDup_nil_2.
Qed.

(** What the assignments of [updateProduct] write, by column. *)
Lemma update_assignments_write (product_id : value) (data : gmap string value)
    (f : Row.t → Row.t) (c : column) :
  assignments (numbered (supplied_columns data))
              ((get data <$> supplied data) ++ [product_id]) = inr f →
  c ∈ supplied_columns data →
  ∃ x, to_cell c (get data (column_name c)) = inr x ∧ ∀ r, cell c (f r) = inl x.
Proof.
  intros Hf Hin. apply list_elem_of_lookup_1 in Hin as [i Hi].
  destruct (assignments_write (supplied_columns data) 0 _ f
              (supplied_columns_NoDup data)
              (λ c' Hc', proj1 (proj1 (supplied_columns_truthy data c') Hc'))
              Hf i c Hi) as (v & x & Hv & Hx & Hcell).
  exists x. split; [|assumption].
  rewrite Nat.add_0_l, supplied_by_columns in Hv.
  rewrite lookup_app_l in Hv
    by (rewrite !length_fmap; eapply lookup_lt_Some; eassumption).
  rewrite <- list_fmap_compose, list_lookup_fmap, Hi in Hv.
  injection Hv as <-. assumption.
Qed.

(** The assignments of [updateProduct] keep the id. *)
Lemma update_assignments_keep_id (product_id : value) (data : gmap string value)
    (f : Row.t → Row.t) :
  assignments (numbered (supplied_columns data))
              ((get data <$> supplied data) ++ [product_id]) = inr f →
  ∀ r, Row.id (f r) = Row.id r.
Proof.
  intros Hf r.
  pose proof (assignments_frame _ _ f c_id Hf) as Hc.
  rewrite numbered_columns in Hc.
  assert (c_id ∉ supplied_columns data) as Hnot.
  { rewrite supplied_columns_truthy. intros [Hin _].
    destruct fixed_columns_not_data as (? & _); contradiction. }
  specialize (Hc Hnot r). cbn in Hc. congruence.
Qed.

(** Writing the same values twice is writing them once. *)
Lemma update_assignments_idempotent (product_id : value) (data : gmap string value)
    (f : Row.t → Row.t) :
  assignments (numbered (supplied_columns data))
              ((get data <$> supplied data) ++ [product_id]) = inr f →
  ∀ r, f (f r) = f r.
Proof.
  intros Hf r. apply row_ext. intros c.
  destruct (decide (c ∈ supplied_columns data)) as [Hin|Hnot].
  - destruct (update_assignments_write product_id data f c Hf Hin) as (x & _ & Hcell).
    rewrite !Hcell. reflexivity.
  - pose proof (assignments_frame _ _ f c Hf) as Hc.
    rewrite numbered_columns in Hc. apply Hc. assumption.
Qed.

(** The run of [updateProduct] once the store has accepted the values. *)
Lemma run_updateProduct_accepted (product_id : value) (data : gmap string value)
    (db : Store) (f : Row.t → Row.t) (k : Z) :
  price_check data = inr false → supplied data ≠ [] →
  assignments (numbered (supplied_columns data))
              ((get data <$> supplied data) ++ [product_id]) = inr f →
  to_integer product_id = inr k →
  run client_query (updateProduct product_id data) db =
    ({| table := (λ r, if decide (has_id k r) then f r else r) <$> table db;
        next_id := next_id db;
        clock := clock db |}, [],
     match f <$> filter (has_id k) (table db) with
     | [] => Failure "Product not found."
     | r :: _ => SuccessProduct (Some r)
     end).
Proof.
  intros Hcheck Hne Hf Hk. rewrite run_updateProduct, Hcheck.
  destruct (decide (supplied data = [])); [contradiction|].
  cbn [exec]. rewrite param_product_id, Hf. cbn [and_then]. rewrite Hk.
  cbn. destruct (filter (has_id k) (table db)); reflexivity.
Qed.

Lemma rewrite_none_matching (k : Z) (f : Row.t → Row.t) (l : list Row.t) :
  filter (has_id k) l = [] →
  (λ r, if decide (has_id k r) then f r else r) <$> l = l.
Proof.
  induction l as [|r l IH]; [reflexivity|].
  rewrite filter_cons. destruct (decide (has_id k r)) as [Hid|Hno]; [discriminate|].
  intros Hnil. cbn. destruct (decide (has_id k r)); [contradiction|].
  f_equal. apply IH. assumption.
Qed.

Lemma filter_rewritten (k : Z) (f : Row.t → Row.t) (l : list Row.t) :
  (∀ r, Row.id (f r) = Row.id r) →
  filter (has_id k) ((λ r, if decide (has_id k r) then f r else r) <$> l)
  = f <$> filter (has_id k) l.
Proof.
  intros Hid. induction l as [|r l IH]; [reflexivity|].
  cbn [fmap list_fmap]. rewrite !filter_cons.
  destruct (decide (has_id k r)) as [Hr|Hr].
  - destruct (decide (has_id k (f r))) as [_|Hno].
    + rewrite fmap_cons. f_equal. apply IH.
    + exfalso. apply Hno. unfold has_id in *. rewrite Hid. assumption.
  - destruct (decide (has_id k r)); [contradiction|]. apply IH.
Qed.

(** A successful [updateProduct] passed validation and had its values and
    its id accepted by the store. *)
Lemma updateProduct_success_inv (product_id : value) (data : gmap string value)
    (db : Store) :
  success (run client_query (updateProduct product_id data) db).2 = true →
  price_check data = inr false ∧ supplied data ≠ []
  ∧ ∃ f k,
      assignments (numbered (supplied_columns data))
                  ((get data <$> supplied data) ++ [product_id]) = inr f
      ∧ to_integer product_id = inr k.
Proof.
  rewrite run_updateProduct.
  destruct (price_check data) as [e|[]]; [discriminate..|].
  destruct (decide (supplied data = [])) as [|Hne]; [discriminate|].
  cbn [exec]. rewrite param_product_id. cbn [and_then].
  destruct (assignments _ _) as [e|f]; [discriminate|].
  destruct (to_integer product_id) as [e|k]; [discriminate|].
  intros _. split; [reflexivity|]. split; [assumption|]. exists f, k. auto.
Qed.

(** An [updateProduct] that fails has left the store as it was. *)
Lemma updateProduct_failure_keeps_store (product_id : value)
    (data : gmap string value) (db : Store) :
  success (run client_query (updateProduct product_id data) db).2 = false →
  (run client_query (updateProduct product_id data) db).1.1 = db.
Proof.
  rewrite run_updateProduct.
  destruct (price_check data) as [e|[]]; [reflexivity..|].
  destruct (decide (supplied data = [])) as [|Hne]; [reflexivity|].
  cbn [exec]. rewrite param_product_id. cbn [and_then].
  destruct (assignments _ _) as [e|f]; [reflexivity|].
  destruct (to_integer product_id) as [e|k]; [reflexivity|].
  cbn. destruct (filter (has_id k) (table db)) as [|r0 rest] eqn:Hfil;
    [|discriminate].
  cbn. intros _. rewrite (rewrite_none_matching k f _ Hfil).
  destruct db; reflexivity.
Qed.

(** Whatever its outcome, [updateProduct] rewrites rows in place by a
    function that keeps ids, and keeps the id sequence and the time. *)
Lemma updateProduct_store_shape (product_id : value) (data : gmap string value)
    (db : Store) :
  ∃ g : Row.t → Row.t,
    (∀ r, Row.id (g r) = Row.id r)
    ∧ (run client_query (updateProduct product_id data) db).1.1
      = {| table := g <$> table db; next_id := next_id db; clock := clock db |}.
Proof.
  destruct (success (run client_query (updateProduct product_id data) db).2)
    eqn:Hok.
  - destruct (updateProduct_success_inv _ _ _ Hok)
      as (Hcheck & Hne & f & k & Hf & Hk).
    exists (λ r, if decide (has_id k r) then f r else r). split.
    + intros r. destruct (decide (has_id k r)); [|reflexivity].
      apply (update_assignments_keep_id product_id data f Hf).
    + rewrite (run_updateProduct_accepted _ _ db f k Hcheck Hne Hf Hk).
      reflexivity.
  - exists (λ r, r). split; [reflexivity|].
    rewrite (updateProduct_failure_keeps_store _ _ _ Hok), list_fmap_id.
    destruct db; reflexivity.
Qed.

Lemma NoDup_ids_filter (P : Row.t → Prop) `{∀ r, Decision (P r)} (l : list Row.t) :
  NoDup (Row.id <$> l) → NoDup (Row.id <$> filter P l).
Proof.
  induction l as [|r l IH]; [intros; cbn; apply NoDup_nil_2|].
  rewrite fmap_cons, NoDup_cons. intros [Hfresh Hnd].
  rewrite filter_cons. destruct (decide (P r)); [|auto].
  rewrite fmap_cons. apply NoDup_cons. split; [|auto].
  intros Hin. apply Hfresh. apply list_elem_of_fmap in Hin as (r' & Heq & Hin).
  apply list_elem_of_filter in Hin as [_ Hin].
  apply list_elem_of_fmap. exists r'. auto.
Qed.

Lemma filter_fresh_id (db : Store) :
  Forall (λ r, (Row.id r < next_id db)%Z) (table db) →
  filter (has_id (next_id db)) (table db) = [].
Proof.
  intros Hall. apply filter_empty_not_exists. rewrite Exists_exists.
  intros [r [Hin Hid]]. rewrite Forall_forall in Hall.
  specialize (Hall r Hin). unfold has_id in Hid. lia.
Qed.

End MoreStoreFacts.

Section StoreExtras.
Context `{Runtime} `{Driver}.

(** X8.  A successful [createProduct], run against the store, appends one
    row and returns it: the row has the next id of the store and the
    store's time in both timestamps, and each of its five cells is the
    store's conversion of the argument of the same name.  Nothing is
    logged and the id sequence moves on by one. *)
Theorem createProduct_persists_arguments
    (name description price category_id image_url : value) (db : Store) :
  success (run client_query
             (createProduct name description price category_id image_url) db).2
  = true →
  ∃ r,
    run client_query
        (createProduct name description price category_id image_url) db
    = ({| table := table db ++ [r];
          next_id := next_id db + 1;
          clock := clock db |}, [], SuccessProduct (Some r))
    ∧ Row.id r = next_id db
    ∧ Row.created_at r = clock db ∧ Row.updated_at r = clock db
    ∧ to_cell c_name name = inr (Row.name r)
    ∧ to_cell c_description description = inr (Row.description r)
    ∧ to_cell c_price price = inr (Row.price r)
    ∧ to_cell c_category_id category_id = inr (Row.category_id r)
    ∧ to_cell c_image_url image_url = inr (Row.image_url r).
Proof.
  rewrite run_createProduct.
  destruct (to_cell c_name name) as [e|x1]; [discriminate|].
  destruct (to_cell c_description description) as [e|x2]; [discriminate|].
  destruct (to_cell c_price price) as [e|x3]; [discriminate|].
  destruct (to_cell c_category_id category_id) as [e|x4]; [discriminate|].
  destruct (to_cell c_image_url image_url) as [e|x5]; [discriminate|].
  intros _. eexists. split; [reflexivity|]. cbn. repeat split.
Qed.

(** X9.  Create, then fetch: in a store whose ids are distinct and below
    the next id, the product a successful [createProduct] returns is the
    product [getSingleProduct] returns for its id afterwards. *)
Theorem create_then_fetch
    (name description price category_id image_url product_id : value)
    (db : Store) :
  distinct_ids db →
  success (run client_query
             (createProduct name description price category_id image_url) db).2
  = true →
  to_integer product_id = inr (next_id db) →
  ∃ r,
    (run client_query
         (createProduct name description price category_id image_url) db).2
    = SuccessProduct (Some r)
    ∧ (run client_query (getSingleProduct product_id)
           (run client_query
                (createProduct name description price category_id image_url)
                db).1.1).2
      = SuccessItem (Some r).
Proof.
  intros [_ Hbelow] Hok Hk. rewrite run_createProduct in Hok |- *.
  destruct (to_cell c_name name) as [e|x1]; [discriminate|].
  destruct (to_cell c_description description) as [e|x2]; [discriminate|].
  destruct (to_cell c_price price) as [e|x3]; [discriminate|].
  destruct (to_cell c_category_id category_id) as [e|x4]; [discriminate|].
  destruct (to_cell c_image_url image_url) as [e|x5]; [discriminate|].
  cbn [and_then fst snd]. eexists. split; [reflexivity|].
  rewrite run_getSingleProduct, Hk. cbn [table].
  rewrite filter_app, (filter_fresh_id db Hbelow), filter_cons.
  cbn. destruct (decide (has_id (next_id db) _)) as [_|Hno]; [reflexivity|].
  exfalso. apply Hno. reflexivity.
Qed.

(** X10.  Delete, then fetch or delete again: after [deleteProduct] for an
    id, whether or not it found a row, neither [getSingleProduct] nor a
    second [deleteProduct] for that id succeeds; when the store accepts
    the id they answer "Item not found" and "Product not found.". *)
Theorem delete_then_not_found (product_id : value) (db : Store) :
  success (run client_query (getSingleProduct product_id)
             (run client_query (deleteProduct product_id) db).1.1).2 = false
  ∧ success (run client_query (deleteProduct product_id)
               (run client_query (deleteProduct product_id) db).1.1).2 = false
  ∧ (∀ k, to_integer product_id = inr k →
       (run client_query (getSingleProduct product_id)
            (run client_query (deleteProduct product_id) db).1.1).2
       = Failure "Item not found"
       ∧ (run client_query (deleteProduct product_id)
              (run client_query (deleteProduct product_id) db).1.1).2
         = Failure "Product not found.").
Proof.
  assert (∀ k, to_integer product_id = inr k →
            filter (has_id k)
              (table (run client_query (deleteProduct product_id) db).1.1) = [])
    as Hgone.
  { intros k Hk. rewrite run_deleteProduct, Hk.
    destruct (decide (filter (has_id k) (table db) = [])) as [Hnil|_];
      [exact Hnil|apply filter_after_delete]. }
  assert (∀ k, to_integer product_id = inr k →
       (run client_query (getSingleProduct product_id)
            (run client_query (deleteProduct product_id) db).1.1).2
       = Failure "Item not found"
       ∧ (run client_query (deleteProduct product_id)
              (run client_query (deleteProduct product_id) db).1.1).2
         = Failure "Product not found.") as Hboth.
  { intros k Hk. specialize (Hgone k Hk).
    rewrite run_getSingleProduct, (run_deleteProduct product_id (_.1.1)), Hk, Hgone.
    destruct (decide (@nil Row.t = [])); [|contradiction]. split; reflexivity. }
  destruct (to_integer product_id) as [e|k] eqn:Hk.
  - rewrite run_getSingleProduct, (run_deleteProduct product_id (_.1.1)), Hk.
    repeat split; discriminate.
  - destruct (Hboth k eq_refl) as [Hget Hdel]. rewrite Hget, Hdel.
    split; [reflexivity|]. split; [reflexivity|].
    intros k' Hk'. injection Hk' as <-. split; reflexivity.
Qed.

(** X11.  A successful [updateProduct], run against the store, writes what
    it was given: for every recognized property that is truthy in the
    input, the returned row, and every row of the new table under the
    requested id, holds the store's conversion of that property's value in
    the column of the same name. *)
Theorem updateProduct_writes_supplied_fields
    (product_id : value) (data : gmap string value) (db : Store) :
  success (run client_query (updateProduct product_id data) db).2 = true →
  ∃ k r',
    to_integer product_id = inr k
    ∧ (run client_query (updateProduct product_id data) db).2
      = SuccessProduct (Some r')
    ∧ ∀ c, c ∈ supplied_columns data →
        ∃ x, to_cell c (get data (column_name c)) = inr x
             ∧ cell c r' = inl x
             ∧ ∀ r, r ∈ table (run client_query
                                 (updateProduct product_id data) db).1.1 →
                    Row.id r = k → cell c r = inl x.
Proof.
  intros Hok.
  destruct (run_updateProduct_success product_id data db Hok)
    as (f & k & r0 & Hf & Hk & Hin0 & Hid0 & Henv & Htable).
  exists k, (f r0). split; [assumption|]. split; [assumption|].
  intros c Hc.
  destruct (update_assignments_write product_id data f c Hf Hc) as (x & Hx & Hcell).
  exists x. split; [assumption|]. split; [apply Hcell|].
  intros r Hin Hid. rewrite Htable in Hin.
  apply list_elem_of_fmap in Hin as (r1 & -> & Hin1).
  destruct (decide (has_id k r1)) as [_|Hno]; [apply Hcell|].
  exfalso. apply Hno. exact Hid.
Qed.

(** X12.  [updateProduct] is idempotent against the store: repeating the
    same call right after the first returns the same envelope, writes the
    same console lines and leaves the store as the first call left it. *)
Theorem updateProduct_idempotent
    (product_id : value) (data : gmap string value) (db : Store) :
  run client_query (updateProduct product_id data)
      (run client_query (updateProduct product_id data) db).1.1
  = ((run client_query (updateProduct product_id data) db).1.1,
     (run client_query (updateProduct product_id data) db).1.2,
     (run client_query (updateProduct product_id data) db).2).
Proof.
  destruct (success (run client_query (updateProduct product_id data) db).2)
    eqn:Hok.
  - destruct (updateProduct_success_inv _ _ _ Hok)
      as (Hcheck & Hne & f & k & Hf & Hk).
    rewrite !(run_updateProduct_accepted _ _ _ f k Hcheck Hne Hf Hk).
    cbn [fst snd table next_id clock].
    pose proof (update_assignments_keep_id product_id data f Hf) as Hid.
    pose proof (update_assignments_idempotent product_id data f Hf) as Hidem.
    rewrite (filter_rewritten k f _ Hid), <- !list_fmap_compose.
    f_equal; [f_equal; f_equal|].
    + apply list_fmap_ext. intros i r _. cbn.
      destruct (decide (has_id k r)) as [Hr|Hr].
      * destruct (decide (has_id k (f r))) as [_|Hno]; [apply Hidem|].
        exfalso. apply Hno. unfold has_id in *. rewrite Hid. assumption.
      * destruct (decide (has_id k r)); [contradiction|reflexivity].
    + replace (f ∘ f <$> filter (has_id k) (table db))
        with (f <$> filter (has_id k) (table db)); [reflexivity|].
      apply list_fmap_ext. intros i r _. cbn. symmetry. apply Hidem.
  - rewrite (updateProduct_failure_keeps_store _ _ _ Hok).
    destruct (run client_query (updateProduct product_id data) db)
      as [[db' out] env] eqn:Hrun.
    pose proof (updateProduct_failure_keeps_store product_id data db) as Hkeep.
    rewrite Hrun in Hkeep. cbn in Hkeep, Hok. rewrite (Hkeep Hok). reflexivity.
Qed.

(** X13.  The writing operations are all-or-nothing against the store: a
    [createProduct], an [updateProduct] or a [deleteProduct] that returns
    a failure envelope has left the store exactly as it was. *)
Theorem failure_keeps_store (db : Store) :
  (∀ name description price category_id image_url,
     success (run client_query
                (createProduct name description price category_id image_url)
                db).2 = false →
     (run client_query
          (createProduct name description price category_id image_url) db).1.1
     = db)
  ∧ (∀ product_id data,
       success (run client_query (updateProduct product_id data) db).2 = false →
       (run client_query (updateProduct product_id data) db).1.1 = db)
  ∧ (∀ product_id,
       success (run client_query (deleteProduct product_id) db).2 = false →
       (run client_query (deleteProduct product_id) db).1.1 = db).
Proof.
  split; [|split].
  - intros name description price category_id image_url.
    rewrite run_createProduct.
    match goal with |- context [match ?m with inl _ => _ | inr _ => _ end] =>
      destruct m as [e|r] end; [reflexivity|discriminate].
  - intros product_id data. apply updateProduct_failure_keeps_store.
  - intros product_id. rewrite run_deleteProduct.
    destruct (to_integer product_id) as [e|k]; [reflexivity|].
    destruct (decide (filter (has_id k) (table db) = [])); [reflexivity|discriminate].
Qed.

(** X14.  Ids stay distinct: if the ids of the table are distinct and
    below the store's next id, they still are after any of the five
    operations, whatever its arguments and its outcome. *)
Theorem operations_keep_ids_distinct (db : Store) :
  distinct_ids db →
  (∀ name description price category_id image_url,
     distinct_ids (run client_query
                     (createProduct name description price category_id image_url)
                     db).1.1)
  ∧ distinct_ids (run client_query getProducts db).1.1
  ∧ (∀ product_id,
       distinct_ids (run client_query (getSingleProduct product_id) db).1.1)
  ∧ (∀ product_id data,
       distinct_ids (run client_query (updateProduct product_id data) db).1.1)
  ∧ (∀ product_id,
       distinct_ids (run client_query (deleteProduct product_id) db).1.1).
Proof.
  intros [Hnd Hbelow]. split; [|split; [|split; [|split]]].
  - intros name description price category_id image_url.
    rewrite run_createProduct.
    destruct (to_cell c_name name) as [e|x1]; [split; assumption|].
    destruct (to_cell c_description description) as [e|x2]; [split; assumption|].
    destruct (to_cell c_price price) as [e|x3]; [split; assumption|].
    destruct (to_cell c_category_id category_id) as [e|x4]; [split; assumption|].
    destruct (to_cell c_image_url image_url) as [e|x5]; [split; assumption|].
    cbn. split; cbn.
    + rewrite fmap_app. apply NoDup_app. split; [assumption|].
      split; [|apply NoDup_singleton].
      intros z Hz Hin. apply list_elem_of_fmap in Hz as (r & -> & Hr).
      cbn in Hin. apply list_elem_of_singleton in Hin.
      rewrite Forall_forall in Hbelow. specialize (Hbelow r Hr). lia.
    + apply Forall_app. split.
      * eapply Forall_impl; [exact Hbelow|]. cbn. intros r Hr. lia.
      * apply Forall_singleton. cbn. lia.
  - rewrite run_getProducts. split; assumption.
  - intros product_id. rewrite run_getSingleProduct.
    destruct (to_integer product_id) as [e|k]; [split; assumption|].
    destruct (filter (has_id k) (table db)); split; assumption.
  - intros product_id data.
    destruct (updateProduct_store_shape product_id data db) as (g & Hid & ->).
    split; cbn.
    + rewrite <- list_fmap_compose.
      replace (Row.id ∘ g <$> table db) with (Row.id <$> table db); [assumption|].
      apply list_fmap_ext. intros i r _. cbn. symmetry. apply Hid.
    + apply Forall_fmap. eapply Forall_impl; [exact Hbelow|].
      cbn. intros r Hr. rewrite Hid. assumption.
  - intros product_id. rewrite run_deleteProduct.
    destruct (to_integer product_id) as [e|k]; [split; assumption|].
    destruct (decide (filter (has_id k) (table db) = [])); [split; assumption|].
    split; cbn.
    + apply NoDup_ids_filter. assumption.
    + rewrite Forall_forall in Hbelow |- *. intros r Hin.
      apply list_elem_of_filter in Hin as [_ Hin]. auto.
Qed.

End StoreExtras.

(** X15.  The server listens on the port of the environment when [PORT] is
    set to a text that is not empty, and on 3000 exactly when it is unset
    or empty: the default is chosen by truthiness, so [PORT=0] is kept as
    the text "0". *)
Theorem PORT_default (env : gmap string string) :
  (PORT env = VNumber (of_Z 3000)
   ↔ env !! "PORT" = None ∨ env !! "PORT" = Some "")
  ∧ (∀ s, env !! "PORT" = Some s → s ≠ "" → PORT env = VString s)
  ∧ PORT (<["PORT" := "0"]> env) = VString "0".
Proof.
  unfold PORT. split; [|split].
  - destruct (env !! "PORT") as [s|]; cbn.
    + destruct s as [|a s]; cbn.
      * split; auto.
      * split; [discriminate|]. intros [Hn|Hs]; discriminate.
    + split; auto.
  - intros s -> Hne. cbn. destruct s as [|a s]; [contradiction|reflexivity].
  - rewrite lookup_insert_eq. reflexivity.
Qed.

(** ** The further properties at concrete inputs *)

Section MoreInstances.
Local Existing Instance integers_only.
Local Existing Instance plain_driver.

Lemma shop_distinct_ids : distinct_ids shop.
Proof.
  split.
  - cbn. repeat (apply NoDup_cons; split;
      [intros Hin; repeat (apply elem_of_cons in Hin as [Heq|Hin]; [discriminate Heq|]);
       inversion Hin|]).
    apply NoDup_nil_2.
  - cbn. repeat constructor.
Defined.

(** An [id] in the payload is not read. *)
Lemma payload_id_is_ignored :
  ("id" ∉ updatable)
  ∧ updateProduct (VNumber (of_Z 1))
      (<["id" := VNumber (of_Z 99)]> description_payload)
    = updateProduct (VNumber (of_Z 1)) description_payload.
Proof.
  assert ("id" ∉ updatable) as Hnot.
  { unfold updatable. intros Hin.
    repeat (apply elem_of_cons in Hin as [Heq|Hin]; [discriminate Heq|]).
    inversion Hin. }
  split; [exact Hnot|].
  exact (updateProduct_ignores_unrecognized _ _ _ _ Hnot).
Defined.

(** A description with a quote and a semicolon is sent under the same text
    as any other description. *)
Lemma quoted_description_same_text :
  (∀ key, key ∈ updatable →
     truthy (get description_payload key)
     = truthy (get quoted_description_payload key))
  ∧ request (updateProduct (VString "1") description_payload)
    = Some (UPDATE_SQL ["description = $1"], [VString "Big mug"; VString "1"])
  ∧ fst <$> request (updateProduct (VString "2") quoted_description_payload)
    = fst <$> request (updateProduct (VString "1") description_payload).
Proof.
  assert (∀ key, key ∈ updatable →
            truthy (get description_payload key)
            = truthy (get quoted_description_payload key)) as Hsame.
  { intros key Hin. unfold updatable in Hin.
    repeat (apply elem_of_cons in Hin as [->|Hin]; [vm_compute; reflexivity|]).
    inversion Hin. }
  assert (request (updateProduct (VString "1") description_payload)
          = Some (UPDATE_SQL ["description = $1"], [VString "Big mug"; VString "1"]))
    as Hreq1 by (vm_compute; reflexivity).
  assert (request (updateProduct (VString "2") quoted_description_payload)
          = Some (UPDATE_SQL ["description = $1"],
                  [VString "'; DROP TABLE products; --"; VString "2"]))
    as Hreq2 by (vm_compute; reflexivity).
  split; [exact Hsame|]. split; [exact Hreq1|].
  pose proof (update_text_ignores_values _ _ _ _ _ _ _ _ Hsame Hreq1 Hreq2) as Htext.
  rewrite Hreq1, Hreq2. exact (f_equal Some (eq_sym Htext)).
Defined.

(** A price of "abc" is sent to the store. *)
Lemma text_price_is_sent :
  (truthy (get text_price_payload "price") = true
   ∧ ToNumber (get text_price_payload "price") = inr NaN)
  ∧ ∃ text values,
      request (updateProduct (VString "1") text_price_payload)
      = Some (text, values)
      ∧ "price" ∈ supplied text_price_payload
      ∧ get text_price_payload "price" ∈ values.
Proof.
  split; [split; vm_compute; reflexivity|].
  apply (updateProduct_sends_unchecked_price (VString "1") text_price_payload NaN);
    [vm_compute; reflexivity|vm_compute; reflexivity|left; reflexivity].
Defined.

(** Creating the pick in the shop. *)
Lemma pick_is_persisted :
  success (run client_query
             (createProduct (VString "Pick") (VString "Celluloid pick")
                (VNumber one) (VNumber (of_Z 3)) (VString "http://x/pick.png"))
             shop).2 = true
  ∧ ∃ r,
      run client_query
        (createProduct (VString "Pick") (VString "Celluloid pick")
           (VNumber one) (VNumber (of_Z 3)) (VString "http://x/pick.png")) shop
      = ({| table := [mug; amp; r]; next_id := 4; clock := 300 |}, [],
         SuccessProduct (Some r))
      ∧ Row.id r = 3%Z ∧ Row.name r = VString "Pick".
Proof.
  split; [vm_compute; reflexivity|].
  destruct (createProduct_persists_arguments
              (VString "Pick") (VString "Celluloid pick")
              (VNumber one) (VNumber (of_Z 3)) (VString "http://x/pick.png") shop)
    as (r & Hrun & Hid & _ & _ & Hname & _); [vm_compute; reflexivity|].
  exists r. split; [exact Hrun|]. split; [exact Hid|].
  cbn in Hname. congruence.
Defined.

(** Creating the pick, then fetching product 3. *)
Lemma pick_is_fetched :
  (distinct_ids shop
   ∧ to_integer (VNumber (of_Z 3)) = inr (next_id shop))
  ∧ ∃ r,
      (run client_query
         (createProduct (VString "Pick") (VString "Celluloid pick")
            (VNumber one) (VNumber (of_Z 3)) (VString "http://x/pick.png"))
         shop).2 = SuccessProduct (Some r)
      ∧ (run client_query (getSingleProduct (VNumber (of_Z 3)))
           (run client_query
              (createProduct (VString "Pick") (VString "Celluloid pick")
                 (VNumber one) (VNumber (of_Z 3)) (VString "http://x/pick.png"))
              shop).1.1).2 = SuccessItem (Some r).
Proof.
  split; [split; [exact shop_distinct_ids|vm_compute; reflexivity]|].
  apply create_then_fetch;
    [exact shop_distinct_ids|vm_compute; reflexivity|vm_compute; reflexivity].
Defined.

(** Updating the description of product 1 writes it. *)
Lemma description_is_written :
  success (run client_query
             (updateProduct (VNumber (of_Z 1)) description_payload) shop).2 = true
  ∧ ∃ r',
      (run client_query
         (updateProduct (VNumber (of_Z 1)) description_payload) shop).2
      = SuccessProduct (Some r')
      ∧ cell c_description r' = inl (VString "Big mug").
Proof.
  split; [vm_compute; reflexivity|].
  destruct (updateProduct_writes_supplied_fields
              (VNumber (of_Z 1)) description_payload shop)
    as (k & r' & _ & Henv & Hcols); [vm_compute; reflexivity|].
  exists r'. split; [exact Henv|].
  destruct (Hcols c_description) as (x & Hx & Hcell & _).
  { apply supplied_columns_truthy. split; [unfold data_columns; listed|].
    vm_compute. reflexivity. }
  rewrite Hcell. cbn in Hx. vm_compute in Hx. congruence.
Defined.

(** The shop keeps distinct ids through a create and a delete. *)
Lemma shop_keeps_distinct_ids :
  distinct_ids shop
  ∧ distinct_ids
      (run client_query
         (createProduct (VString "Pick") (VString "Celluloid pick")
            (VNumber one) (VNumber (of_Z 3)) (VString "http://x/pick.png"))
         shop).1.1
  ∧ distinct_ids (run client_query (deleteProduct (VString "2")) shop).1.1.
Proof.
  split; [exact shop_distinct_ids|].
  destruct (operations_keep_ids_distinct shop shop_distinct_ids)
    as (Hcreate & _ & _ & _ & Hdelete).
  split; [apply Hcreate|apply Hdelete].
Defined.

(** A second delete of product 2 fails and changes nothing. *)
Lemma second_delete_keeps_store :
  success (run client_query (deleteProduct (VString "2"))
             (run client_query (deleteProduct (VString "2")) shop).1.1).2 = false
  ∧ (run client_query (deleteProduct (VString "2"))
       (run client_query (deleteProduct (VString "2")) shop).1.1).1.1
    = (run client_query (deleteProduct (VString "2")) shop).1.1.
Proof.
  split; [vm_compute; reflexivity|].
  destruct (failure_keeps_store
              (run client_query (deleteProduct (VString "2")) shop).1.1)
    as (_ & _ & Hdel).
  apply Hdel. vm_compute. reflexivity.
Defined.

End MoreInstances.

Section OpaqueInstances.
Local Existing Instance opaque_objects.

(** An object as the price, in a runtime where objects do not convert. *)
Lemma object_price_is_caught :
  (truthy (get object_price_payload "price") = true
   ∧ js_le (get object_price_payload "price") pos_zero
     = inl {| message := "Cannot convert object to primitive value" |})
  ∧ request (updateProduct (VString "1") object_price_payload) = None
  ∧ run (rejecting connection_lost)
        (updateProduct (VString "1") object_price_payload) tt
    = (tt,
       [[LogString "ERROR UPDATING PRODUCT: ";
         LogError {| message := "Cannot convert object to primitive value" |}]],
       Failure "Cannot convert object to primitive value").
Proof.
  split; [split; vm_compute; reflexivity|].
  destruct (updateProduct_catches_thrown_conversion
              (VString "1") object_price_payload
              {| message := "Cannot convert object to primitive value" |})
    as (Hreq & Hrun); [vm_compute; reflexivity..|].
  split; [exact Hreq|apply Hrun].
Defined.

End OpaqueInstances.
